(** * Shopmate: inventory service with token authentication

    A shallow embedding of [app.js] and [routes/posts.js], and the
    properties of the purchase transaction and of the token lifecycle.

    - Request bodies are JSON objects; their fields are JavaScript values
      ([jsval]) with the language's truthiness, strict equality with
      [undefined] and relational comparison against a number.
    - The MySQL database behind [pool] is a record of four tables.  Every
      statement the handlers send is one operation on that record; a
      statement may fail (throw), and so may taking a connection from the
      pool.  A transaction is the snapshot taken at BEGIN, restored by
      ROLLBACK.
    - A handler is a function in a state-and-exception monad over the
      tables, the open transaction, the failures to come, the statements
      sent and the clock; [try ... catch] is a combinator of that monad.
    - [jsonwebtoken], [bcrypt] and the two secrets of [process.env] are
      parameters ([Environment]).

    Numbers are integers throughout (JSON fractions, and strings that
    denote them, are outside the model), and requests are served one after
    the other. *)

From Stdlib Require Import ZArith Lia Bool Ascii String List.
From stdpp Require Import base option list strings pretty gmap.

Local Open Scope string_scope.
Local Open Scope list_scope.
Local Open Scope Z_scope.

(** ** JavaScript values *)

Module JS.

(** The values a JSON body field can take here; [JUndefined] is an absent
    field (destructuring a missing property). *)
Inductive jsval : Type :=
| JUndefined
| JNull
| JBool (b : bool)
| JNum (n : Z)
| JStr (s : string).

#[global] Instance jsval_eq_dec : EqDecision jsval.
Proof. solve_decision. Defined.

(** ToBoolean: what [!v] negates. *)
Definition truthy (v : jsval) : bool :=
  match v with
  | JUndefined | JNull => false
  | JBool b => b
  | JNum n => negb (n =? 0)
  | JStr s => negb (String.eqb s "")
  end.

(** [v === undefined] *)
Definition is_undefined (v : jsval) : bool :=
  match v with JUndefined => true | _ => false end.

(** White space skipped by [parseInt] and trimmed by ToNumber (the ASCII
    part of it). *)
Definition is_space (c : ascii) : bool :=
  let n := Z.of_nat (nat_of_ascii c) in
  (n =? 32) || ((9 <=? n) && (n <=? 13)).

Fixpoint skip_space (s : string) : string :=
  match s with
  | String c r => if is_space c then skip_space r else s
  | EmptyString => s
  end.

Fixpoint all_space (s : string) : bool :=
  match s with
  | String c r => is_space c && all_space r
  | EmptyString => true
  end.

(** Value of [c] as a digit in the given radix. *)
Definition digit_val (radix : Z) (c : ascii) : option Z :=
  let n := Z.of_nat (nat_of_ascii c) in
  let v :=
    if (48 <=? n) && (n <=? 57) then Some (n - 48)
    else if (97 <=? n) && (n <=? 122) then Some (n - 87)
    else if (65 <=? n) && (n <=? 90) then Some (n - 55)
    else None in
  match v with
  | Some d => if d <? radix then Some d else None
  | None => None
  end.

(** The longest prefix of digits, as a number, and what follows it;
    [None] as the number when there is no digit at all. *)
Fixpoint digits_prefix (radix : Z) (acc : option Z) (s : string)
  : option Z * string :=
  match s with
  | String c r =>
      match digit_val radix c with
      | Some d => digits_prefix radix (Some (radix * default 0 acc + d)) r
      | None => (acc, s)
      end
  | EmptyString => (acc, s)
  end.

Definition strip_sign (s : string) : bool * string :=
  match s with
  | String "-" r => (true, r)
  | String "+" r => (false, r)
  | _ => (false, s)
  end.

Definition strip_hex_prefix (s : string) : Z * string :=
  match s with
  | String "0" (String "x" r) => (16, r)
  | String "0" (String "X" r) => (16, r)
  | _ => (10, s)
  end.

(** The number a JavaScript double holds for the integer [n]: [n] itself
    below 2^53, and beyond that the nearest multiple of the spacing of
    doubles at that size, a tie going to the even one.  (For numerals of
    more than 20 digits the language leaves the rounding to the
    implementation, and integers from 2^1024 on are [Infinity] in
    JavaScript; the statements below stay clear of both.) *)
Definition to_double (n : Z) : Z :=
  let a := Z.abs n in
  if a <? 2 ^ 53 then n
  else
    let e := Z.log2 a - 52 in
    let q := a / 2 ^ e in
    let r := a mod 2 ^ e in
    let half := 2 ^ (e - 1) in
    let q' := if (half <? r) || ((r =? half) && Z.odd q) then q + 1 else q in
    Z.sgn n * (q' * 2 ^ e).

(** [parseInt(s)] with no radix argument; [None] is [NaN]. *)
Definition parseInt (s : string) : option Z :=
  let '(neg, s1) := strip_sign (skip_space s) in
  let '(radix, s2) := strip_hex_prefix s1 in
  match digits_prefix radix None s2 with
  | (Some n, _) => Some (to_double (if neg then - n else n))
  | (None, _) => None
  end.

(** ToNumber on a string, for decimal integer literals only: white space
    around the literal is dropped, the empty string is 0; [None] is [NaN].
    Literals with a fraction or an exponent, in another radix, and
    [Infinity] are numbers in JavaScript and [NaN] here; the statements
    below about a quantity are about quantities that are numbers. *)
Definition string_to_number (s : string) : option Z :=
  let s0 := skip_space s in
  if String.eqb s0 "" then Some 0
  else
    let '(neg, s1) := strip_sign s0 in
    match digits_prefix 10 None s1 with
    | (Some n, rest) =>
        if all_space rest then Some (if neg then - n else n) else None
    | (None, _) => None
    end.

(** ToNumber; [None] is [NaN]. *)
Definition to_number (v : jsval) : option Z :=
  match v with
  | JUndefined => None
  | JNull => Some 0
  | JBool b => Some (if b then 1 else 0)
  | JNum n => Some n
  | JStr s => string_to_number s
  end.

(** [v <= k] for a number [k]: false when [v] converts to [NaN]. *)
Definition le_num (v : jsval) (k : Z) : bool :=
  match to_number v with
  | Some n => n <=? k
  | None => false
  end.

(** [s.split(sep)] for a separator of one character. *)
Fixpoint split_aux (sep : ascii) (cur : string) (s : string) : list string :=
  match s with
  | String c r =>
      if Ascii.eqb c sep then String.rev cur :: split_aux sep "" r
      else split_aux sep (String c cur) r
  | EmptyString => [String.rev cur]
  end.

Definition split (s : string) (sep : ascii) : list string :=
  split_aux sep "" s.

End JS.
Export JS.

(** ** The database *)

Module Storage.

Record user_row : Type := mk_user
  { u_id : Z; u_username : string; u_password : string; u_role : string }.

Record token_row : Type := mk_token
  { t_user_id : Z; t_token : string; t_expires_at : Z }.

(** The columns of [inventory] other than its key. *)
Record item : Type := mk_item
  { item_name : string; stock : Z; price : option Z }.

(** A row of [SELECT * FROM inventory]. *)
Record inventory_row : Type := mk_row
  { r_item_id : Z; r_item_name : string; r_stock : Z; r_price : option Z }.

Record purchase_row : Type := mk_purchase
  { p_item_id : Z; p_quantity : Z; p_user_id : option Z }.

(** Modelled from the spec: the table definitions are not part of the
    sources; the columns follow section 3 of the specification.
    [inventory] is keyed by [item_id] (a duplicate raises ER_DUP_ENTRY),
    [stock] is an integer, [price] may be NULL, and [refresh_tokens]
    may hold several rows per user. *)
Record database : Type := mk_db
  { users : list user_row;
    refresh_tokens : list token_row;
    inventory : gmap Z item;
    purchases : list purchase_row }.

#[global] Instance user_row_eq_dec : EqDecision user_row.
Proof. solve_decision. Defined.
#[global] Instance token_row_eq_dec : EqDecision token_row.
Proof. solve_decision. Defined.
#[global] Instance item_eq_dec : EqDecision item.
Proof. solve_decision. Defined.
#[global] Instance inventory_row_eq_dec : EqDecision inventory_row.
Proof. solve_decision. Defined.
#[global] Instance purchase_row_eq_dec : EqDecision purchase_row.
Proof. solve_decision. Defined.

Definition set_refresh_tokens (f : list token_row -> list token_row)
  (d : database) :=
  mk_db (users d) (f (refresh_tokens d)) (inventory d) (purchases d).
Definition set_inventory (f : gmap Z item -> gmap Z item) (d : database) :=
  mk_db (users d) (refresh_tokens d) (f (inventory d)) (purchases d).
Definition set_purchases (f : list purchase_row -> list purchase_row)
  (d : database) :=
  mk_db (users d) (refresh_tokens d) (inventory d) (f (purchases d)).

Definition row_of (id : Z) (it : item) : inventory_row :=
  mk_row id (item_name it) (stock it) (price it).

(** *** Binding a JavaScript parameter to a column

    Modelled from the spec: how the storage layer admits a bound
    parameter into a typed column.  [undefined] and [null] are sent as
    NULL, booleans as 1 and 0.  A string is not admitted where an
    integer is expected, nor a number where a string is (MySQL would
    convert some of them; the model raises an error instead). *)

Definition as_int (v : jsval) : option Z :=
  match v with
  | JNum n => Some n
  | JBool b => Some (if b then 1 else 0)
  | _ => None
  end.

Definition as_str (v : jsval) : option string :=
  match v with JStr s => Some s | _ => None end.

Definition as_nullable_int (v : jsval) : option (option Z) :=
  match v with
  | JUndefined | JNull => Some None
  | _ => Some <$> as_int v
  end.

(** [column = ?] on a string column. *)
Definition str_matches (v : jsval) (s : string) : bool :=
  match v with JStr x => String.eqb x s | _ => false end.

(** *** Statements

    One constructor per SQL text in the sources, with its bound
    parameters. *)
Inductive stmt : Type :=
| SelectUserByName (username : jsval)
    (* SELECT * FROM users WHERE username = ? LIMIT 1 *)
| InsertRefreshToken (user_id : Z) (token : string) (expires_at : Z)
    (* INSERT INTO refresh_tokens (user_id, token, expires_at) VALUES (?, ?, ?) *)
| SelectRefreshToken (user_id : Z) (token : jsval)
    (* SELECT * FROM refresh_tokens WHERE user_id = ? AND token = ? *)
| SelectUserById (id : Z)
    (* SELECT * FROM users WHERE id = ? *)
| DeleteRefreshToken (token : jsval)
    (* DELETE FROM refresh_tokens WHERE token = ? *)
| SelectItem (id : jsval)
    (* SELECT * FROM inventory WHERE item_id = ? *)
| InsertItem (id name stock price : jsval)
    (* INSERT INTO inventory (item_id, item_name, stock, price) VALUES (?, ?, ?, ?) *)
| DeleteItem (id : jsval)
    (* DELETE FROM inventory WHERE item_id = ? *)
| UpdateStockIf (quantity id : jsval)
    (* UPDATE inventory SET stock = stock - ? WHERE item_id = ? AND stock >= ? *)
| SelectStock (id : jsval)
    (* SELECT stock FROM inventory WHERE item_id = ? *)
| InsertPurchase (id quantity : jsval) (user_id : option Z)
    (* INSERT INTO purchases (item_id, quantity, user_id) VALUES (?, ?, ?) *)
| UpdateItemMalformed (name stock price id : jsval)
    (* UPDATE inventory SET item_name = ?, stock = ?, SET price = ? WHERE item_id = ? *)
| Begin
| Commit
| Rollback.

#[global] Instance stmt_eq_dec : EqDecision stmt.
Proof. solve_decision. Defined.

(** What a handler can catch. *)
Inductive js_error : Type :=
| ER_DUP_ENTRY            (* err.code === "ER_DUP_ENTRY" *)
| StorageError            (* any other failure of a statement *)
| ReferenceError (name : string)
| JsonWebTokenError
| BcryptError.

#[global] Instance js_error_eq_dec : EqDecision js_error.
Proof. solve_decision. Defined.

(** *** What each statement does to the tables *)

Definition select_user_by_name (username : jsval) (d : database)
  : list user_row :=
  take 1 (filter (fun u => str_matches username (u_username u) = true)
            (users d)).

Definition select_user_by_id (id : Z) (d : database) : list user_row :=
  filter (fun u => u_id u = id) (users d).

Definition insert_refresh_token (uid : Z) (tok : string) (exp : Z)
  (d : database) : database :=
  set_refresh_tokens (fun l => l ++ [mk_token uid tok exp]) d.

Definition select_refresh_token (uid : Z) (tok : jsval) (d : database)
  : list token_row :=
  filter (fun t => t_user_id t = uid /\ str_matches tok (t_token t) = true)
    (refresh_tokens d).

Definition delete_refresh_token (tok : jsval) (d : database) : database :=
  set_refresh_tokens
    (filter (fun t => str_matches tok (t_token t) <> true)) d.

Definition select_item (id : jsval) (d : database) : list inventory_row :=
  match as_int id with
  | Some k =>
      match inventory d !! k with
      | Some it => [row_of k it]
      | None => []
      end
  | None => []
  end.

Definition insert_item (id name stock price : jsval) (d : database)
  : js_error + database :=
  match as_int id, as_str name, as_int stock, as_nullable_int price with
  | Some k, Some n, Some s, Some p =>
      match inventory d !! k with
      | Some _ => inl ER_DUP_ENTRY
      | None => inr (set_inventory (insert k (mk_item n s p)) d)
      end
  | _, _, _, _ => inl StorageError
  end.

Definition delete_item (id : jsval) (d : database) : database :=
  match as_int id with
  | Some k => set_inventory (delete k) d
  | None => d
  end.

(** The conditional decrement: the new tables and [affectedRows]. *)
Definition update_stock_if (quantity id : jsval) (d : database)
  : js_error + (Z * database) :=
  match as_int quantity with
  | Some q =>
      match as_int id with
      | Some k =>
          match inventory d !! k with
          | Some it =>
              if q <=? stock it
              then inr (1, set_inventory
                             (insert k (mk_item (item_name it)
                                          (stock it - q) (price it))) d)
              else inr (0, d)
          | None => inr (0, d)
          end
      | None => inr (0, d)
      end
  | None => inl StorageError
  end.

Definition select_stock (id : jsval) (d : database) : list Z :=
  r_stock <$> select_item id d.

Definition insert_purchase (id quantity : jsval) (uid : option Z)
  (d : database) : js_error + database :=
  match as_int id, as_int quantity with
  | Some k, Some q =>
      inr (set_purchases (fun l => l ++ [mk_purchase k q uid]) d)
  | _, _ => inl StorageError
  end.

End Storage.
Export Storage.

(** ** Requests, responses and the handler monad *)

Module Http.

(** The claims of a verified token (what [jwt.verify] returns):
    [{ id, role }] for an access token, [{ id }] for a refresh token. *)
Record payload : Type := mk_payload { pl_id : Z; pl_role : option string }.

#[global] Instance payload_eq_dec : EqDecision payload.
Proof. solve_decision. Defined.

Record request : Type := mk_req
  { authorization : option string;   (* req.headers["authorization"] *)
    params_id : string;              (* req.params.id *)
    body : gmap string jsval;        (* req.body *)
    user : option payload;           (* req.user *)
    itemId : jsval }.                (* req.itemId *)

(** [const { k } = req.body] *)
Definition field (req : request) (k : string) : jsval :=
  default JUndefined (body req !! k).

Definition with_user (p : payload) (req : request) : request :=
  mk_req (authorization req) (params_id req) (body req) (Some p) (itemId req).

Definition with_itemId (id : Z) (req : request) : request :=
  mk_req (authorization req) (params_id req) (body req) (user req) (JNum id).

(** The JSON documents the handlers send. *)
Inductive reply : Type :=
| Message (message : string)
| Row (r : inventory_row)
| NoRow                                       (* res.json(undefined) *)
| Created (id name stock price : jsval) (message : string)
| Deleted (message : string) (item : inventory_row)
| Session (accessToken refreshToken role : string)
| Access (accessToken : string)
| Purchased (quantity itemId : jsval).
    (* message: `Purchase successful: ${quantity} units of item ${req.itemId}` *)

#[global] Instance reply_eq_dec : EqDecision reply.
Proof. solve_decision. Defined.

Record response : Type := mk_resp { status : Z; json : reply }.

#[global] Instance response_eq_dec : EqDecision response.
Proof. solve_decision. Defined.

(** The state a request runs against: the tables, the snapshot taken by
    an open transaction, the failures still to come (one entry per call
    to the pool or the connection: [getConnection], a statement, BEGIN,
    COMMIT, ROLLBACK; [true] makes that call throw), the statements sent
    so far, and the clock. *)
Record world : Type := mk_world
  { db : database;
    txn : option database;
    faults : list bool;
    trace : list stmt;
    now : Z }.

Inductive outcome (A : Type) : Type :=
| Ok (a : A)
| Throw (e : js_error).
Arguments Ok {A} a.
Arguments Throw {A} e.

Definition M (A : Type) : Type := world -> outcome A * world.

Definition ret {A} (a : A) : M A := fun w => (Ok a, w).

Definition bind {A B} (m : M A) (k : A -> M B) : M B :=
  fun w =>
    match m w with
    | (Ok a, w') => k a w'
    | (Throw e, w') => (Throw e, w')
    end.

Definition throw {A} (e : js_error) : M A := fun w => (Throw e, w).

(** [try { m } catch (err) { h err }] *)
Definition try_catch {A} (m : M A) (h : js_error -> M A) : M A :=
  fun w =>
    match m w with
    | (Ok a, w') => (Ok a, w')
    | (Throw e, w') => h e w'
    end.

(** [Date.now()] and the clock [jsonwebtoken] reads. *)
Definition clock : M Z := fun w => (Ok (now w), w).

(** The next entry of the failure schedule. *)
Definition fails_next (w : world) : bool :=
  match faults w with
  | b :: _ => b
  | [] => false
  end.

(** The world after sending statement [s], before its effect. *)
Definition sent (s : stmt) (w : world) : world :=
  mk_world (db w) (txn w) (tail (faults w)) (trace w ++ [s]) (now w).

Definition with_db (d : database) (w : world) : world :=
  mk_world d (txn w) (faults w) (trace w) (now w).

Definition with_txn (t : option database) (w : world) : world :=
  mk_world (db w) t (faults w) (trace w) (now w).

(** [await pool.query(s)] / [await conn.query(s)] *)
Definition statement {A} (s : stmt)
  (run : database -> js_error + (A * database)) : M A :=
  fun w =>
    if fails_next w then (Throw StorageError, sent s w)
    else
      match run (db w) with
      | inl e => (Throw e, sent s w)
      | inr (a, d) => (Ok a, with_db d (sent s w))
      end.

Definition reading {A} (f : database -> A)
  : database -> js_error + (A * database) :=
  fun d => inr (f d, d).

Definition writing (f : database -> database)
  : database -> js_error + (unit * database) :=
  fun d => inr (tt, f d).

Definition checked_writing (f : database -> js_error + database)
  : database -> js_error + (unit * database) :=
  fun d => match f d with inl e => inl e | inr d' => inr (tt, d') end.

(** [await conn.beginTransaction()] *)
Definition beginTransaction : M unit :=
  fun w =>
    if fails_next w then (Throw StorageError, sent Begin w)
    else (Ok tt, with_txn (Some (db w)) (sent Begin w)).

(** [await conn.commit()] *)
Definition commit : M unit :=
  fun w =>
    if fails_next w then (Throw StorageError, sent Commit w)
    else (Ok tt, with_txn None (sent Commit w)).

(** [await pool.getConnection()]: a point of failure that sends no
    statement.  When the pool cannot hand out a connection the call
    rejects and the tables are untouched. *)
Definition getConnection : M unit :=
  fun w =>
    let w1 := mk_world (db w) (txn w) (tail (faults w)) (trace w) (now w) in
    if fails_next w then (Throw StorageError, w1) else (Ok tt, w1).

(** [await conn.rollback()]: back to the snapshot of the open
    transaction, if there is one.  It is a point of failure as well: the
    call rejects when the connection is lost, and the server then
    discards the open transaction on its own, so the tables go back to
    the snapshot either way and only the caller sees the difference. *)
Definition rollback : M unit :=
  fun w =>
    let w1 := sent Rollback w in
    let w2 := match txn w with
              | Some d => with_txn None (with_db d w1)
              | None => w1
              end in
    if fails_next w then (Throw StorageError, w2) else (Ok tt, w2).

(** What a middleware does: [next()] or answer. *)
Inductive step : Type :=
| Next (req : request)
| Answer (r : response).

Definition middleware : Type := request -> M step.
Definition handler : Type := request -> M response.

(** [res.status(code).json(doc)] *)
Definition respond (code : Z) (doc : reply) : M response :=
  ret (mk_resp code doc).

Definition answer (code : Z) (doc : reply) : M step :=
  ret (Answer (mk_resp code doc)).

Definition next (req : request) : M step := ret (Next req).

(** [router.METHOD(path, m1, ..., mn, h)] *)
Fixpoint route (ms : list middleware) (h : handler) : handler :=
  match ms with
  | [] => h
  | m :: rest =>
      fun req =>
        bind (m req) (fun s =>
          match s with
          | Next req' => route rest h req'
          | Answer r => ret r
          end)
  end.

End Http.
Export Http.

Declare Scope handler_scope.
Delimit Scope handler_scope with handler.
Notation "'let*' x ':=' m 'in' k" := (bind m (fun x => k))
  (at level 10, x name, m at level 100, k at level 200) : handler_scope.
Notation "m ';;' k" := (bind m (fun _ => k))
  (at level 100, k at level 200, right associativity) : handler_scope.
Local Open Scope handler_scope.

(** ** routes/posts.js *)

Module Posts.

(** Admin-only middleware. *)
Definition authorizeAdmin : middleware := fun req =>
  match user req with
  | Some u =>
      if decide (pl_role u = Some "admin") then next req
      else answer 403 (Message "Forbidden: Admin privilege required")
  | None => answer 403 (Message "Forbidden: Admin privilege required")
  end.

(** User-only middleware (keeps admins out). *)
Definition authorizeUser : middleware := fun req =>
  match user req with
  | None => answer 401 (Message "Unauthorized: Must be logged in")
  | Some u =>
      if decide (pl_role u = Some "admin")
      then answer 403 (Message "Forbidden: Admins cannot make purchases")
      else next req
  end.

(** Validate the id parameter. *)
Definition validateIdParam : middleware := fun req =>
  match parseInt (params_id req) with
  | None => answer 400 (Message "Invalid item ID")
  | Some id =>
      if id <=? 0 then answer 400 (Message "Invalid item ID")
      else next (with_itemId id req)
  end.

(** READ single item: [router.get("/:id", validateIdParam, ...)] *)
Definition get_item : handler := fun req =>
  try_catch
    (let* rows := statement (SelectItem (itemId req))
                    (reading (select_item (itemId req))) in
     match rows with
     | [] => respond 404 (Message "Item not found")
     | r :: _ => respond 200 (Row r)
     end)
    (fun err => respond 500 (Message "Database error")).

(** CREATE new item: [router.post("/", authorizeAdmin, ...)] *)
Definition create_item : handler := fun req =>
  let id := field req "id" in
  let name := field req "name" in
  let stock := field req "stock" in
  let price := field req "price" in
  if negb (truthy id) || negb (truthy name) || is_undefined stock
  then respond 400 (Message "Missing fields")
  else
    try_catch
      (statement (InsertItem id name stock price)
         (checked_writing (insert_item id name stock price));;
       respond 201 (Created id name stock price "Item added successfully"))
      (fun err =>
         if decide (err = ER_DUP_ENTRY)
         then respond 400 (Message "ID already exists")
         else respond 500 (Message "Database error")).

(** UPDATE item: [router.put("/:id", authorizeAdmin, validateIdParam, ...)].

    Only [name] and [stock] are taken from the body, so building the
    parameter array [[name, stock, price, req.itemId]] throws a
    ReferenceError for [price] before any statement is sent.  The
    statement text itself carries a second SET keyword, which the
    database would reject. *)
Definition malformed_update (d : database) : js_error + (Z * database) :=
  inl StorageError.

Definition update_item : handler := fun req =>
  let name := field req "name" in
  let stock := field req "stock" in
  try_catch
    (let* price := throw (A := jsval) (ReferenceError "price") in
     let* affectedRows :=
       statement (UpdateItemMalformed name stock price (itemId req))
         malformed_update in
     if affectedRows =? 0 then respond 404 (Message "Item not found")
     else
       let* rows := statement (SelectItem (itemId req))
                      (reading (select_item (itemId req))) in
       match rows with
       | r :: _ => respond 200 (Row r)
       | [] => respond 200 NoRow
       end)
    (fun err => respond 500 (Message "Database error")).

(** DELETE item: [router.delete("/:id", authorizeAdmin, validateIdParam, ...)] *)
Definition delete_item_handler : handler := fun req =>
  try_catch
    (let* rows := statement (SelectItem (itemId req))
                    (reading (select_item (itemId req))) in
     match rows with
     | [] => respond 404 (Message "Item not found")
     | r :: _ =>
         statement (DeleteItem (itemId req))
           (writing (delete_item (itemId req)));;
         respond 200 (Deleted "Item deleted successfully" r)
     end)
    (fun err => respond 500 (Message "Database error")).

(** PURCHASE item: [router.post("/purchase/:id", authorizeUser,
    validateIdParam, ...)].  The connection is taken before the [try]:
    when [pool.getConnection()] rejects, the exception leaves the handler
    and no answer is sent; so does one thrown by [conn.rollback()] in the
    [catch] block.  [conn.release()] in the [finally] block has no effect
    on the tables. *)
Definition purchase : handler := fun req =>
  let quantity := field req "quantity" in
  let userId := pl_id <$> user req in
  if negb (truthy quantity) || le_num quantity 0
  then respond 400 (Message "Invalid quantity")
  else
    getConnection;;
    try_catch
      (beginTransaction;;
       let* affectedRows :=
         statement (UpdateStockIf quantity (itemId req))
           (update_stock_if quantity (itemId req)) in
       if affectedRows =? 0 then
         rollback;;
         let* checkRows := statement (SelectStock (itemId req))
                             (reading (select_stock (itemId req))) in
         match checkRows with
         | [] => respond 404 (Message "Item not found")
         | _ :: _ => respond 400 (Message "Insufficient stock")
         end
       else
         statement (InsertPurchase (itemId req) quantity userId)
           (checked_writing (insert_purchase (itemId req) quantity userId));;
         commit;;
         respond 200 (Purchased quantity (itemId req)))
      (fun err =>
         rollback;;
         respond 500 (Message "Transaction failed")).

(** The routes as registered on the router. *)
Definition GET_id : handler := route [validateIdParam] get_item.
Definition POST_root : handler := route [authorizeAdmin] create_item.
Definition PUT_id : handler :=
  route [authorizeAdmin; validateIdParam] update_item.
Definition DELETE_id : handler :=
  route [authorizeAdmin; validateIdParam] delete_item_handler.
Definition POST_purchase_id : handler :=
  route [authorizeUser; validateIdParam] purchase.

End Posts.
Export Posts.

(** ** app.js *)

(** What [app.js] imports and reads from its environment.

    - [jwt_sign p secret expiresIn t] is the token [jsonwebtoken] signs at
      clock [t] with a lifetime of [expiresIn] seconds;
      [jwt_verify token secret t] is the payload, or [None] when
      verification throws (bad signature, expired, malformed).
    - [bcrypt_compare data hash] is the result of [bcrypt.compare], or
      [None] when the library rejects its arguments.
    - [ACCESS_TOKEN] and [REFRESH_TOKEN] are the two signing secrets of
      [process.env]. *)
Class Environment : Type := mk_env
  { jwt_sign : payload -> string -> Z -> Z -> string;
    jwt_verify : string -> string -> Z -> option payload;
    bcrypt_compare : jsval -> string -> option bool;
    ACCESS_TOKEN : string;
    REFRESH_TOKEN : string }.

Module App.
Section App.

Context {env : Environment}.

(** [jwt.sign(payload, secret, { expiresIn })] *)
Definition sign (p : payload) (secret : string) (expiresIn : Z) : M string :=
  let* t := clock in ret (jwt_sign p secret expiresIn t).

(** [jwt.verify(token, secret)]; anything but a string throws. *)
Definition verify (token : jsval) (secret : string) : M payload :=
  let* t := clock in
  match token with
  | JStr s =>
      match jwt_verify s secret t with
      | Some p => ret p
      | None => throw JsonWebTokenError
      end
  | _ => throw JsonWebTokenError
  end.

(** [await bcrypt.compare(password, hash)] *)
Definition compare (password : jsval) (hash : string) : M bool :=
  match bcrypt_compare password hash with
  | Some b => ret b
  | None => throw BcryptError
  end.

(** Login route with refresh token. *)
Definition login : handler := fun req =>
  let username := field req "username" in
  let password := field req "password" in
  if negb (truthy username) || negb (truthy password)
  then respond 400 (Message "Username and password required")
  else
    try_catch
      (let* rows := statement (SelectUserByName username)
                      (reading (select_user_by_name username)) in
       match rows with
       | [] => respond 401 (Message "Invalid username or password")
       | user :: _ =>
           let* valid := compare password (u_password user) in
           if negb valid
           then respond 401 (Message "Invalid username or password")
           else
             let* accessToken :=
               sign (mk_payload (u_id user) (Some (u_role user)))
                 ACCESS_TOKEN 3600 in
             let* refreshToken :=
               sign (mk_payload (u_id user) None) REFRESH_TOKEN 604800 in
             let* t := clock in
             let expiresAt := t + 7 * 24 * 60 * 60 * 1000 in
             statement (InsertRefreshToken (u_id user) refreshToken expiresAt)
               (writing (insert_refresh_token (u_id user) refreshToken
                           expiresAt));;
             respond 200 (Session accessToken refreshToken (u_role user))
       end)
      (fun err => respond 500 (Message "Database error")).

(** Refresh token route. *)
Definition refresh : handler := fun req =>
  let token := field req "token" in
  if negb (truthy token)
  then respond 401 (Message "No refresh token provided")
  else
    try_catch
      (let* payload := verify token REFRESH_TOKEN in
       let* rows := statement (SelectRefreshToken (pl_id payload) token)
                      (reading (select_refresh_token (pl_id payload) token)) in
       match rows with
       | [] => respond 403 (Message "Invalid refresh token")
       | _ :: _ =>
           let* userRow := statement (SelectUserById (pl_id payload))
                             (reading (select_user_by_id (pl_id payload))) in
           match userRow with
           | [] => respond 404 (Message "User not found")
           | user :: _ =>
               let* accessToken :=
                 sign (mk_payload (u_id user) (Some (u_role user)))
                   ACCESS_TOKEN 3600 in
               respond 200 (Access accessToken)
           end
       end)
      (fun err => respond 403 (Message "Invalid refresh token")).

(** Logout route. *)
Definition logout : handler := fun req =>
  let token := field req "token" in
  if negb (truthy token)
  then respond 400 (Message "No refresh token provided")
  else
    try_catch
      (statement (DeleteRefreshToken token)
         (writing (delete_refresh_token token));;
       respond 200 (Message "Logged out successfully"))
      (fun err => respond 500 (Message "Database error")).

(** [auth.split(" ")[1]] *)
Definition bearer (auth : string) : jsval :=
  match split auth " " !! 1%nat with
  | Some s => JStr s
  | None => JUndefined
  end.

(** JWT middleware. *)
Definition verifyToken : middleware := fun req =>
  match authorization req with
  | None => answer 401 (Message "No token provided")
  | Some auth =>
      if String.eqb auth ""
      then answer 401 (Message "No token provided")
      else
        try_catch
          (let token := bearer auth in
           let* p := verify token ACCESS_TOKEN in
           next (with_user p req))
          (fun err => answer 403 (Message "Invalid token"))
  end.

(** [app.use("/inventory", verifyToken, postsRouter)] *)
Definition inventory_route (h : handler) : handler := route [verifyToken] h.

End App.
End App.

(** ** Serving requests one after the other *)

Module Server.

(** A request as it arrives: with the failures its statements will meet
    and the time on the clock. *)
Record call : Type := mk_call
  { call_req : request; call_faults : list bool; call_now : Z }.

Definition arrive (c : call) (w : world) : world :=
  mk_world (db w) (txn w) (call_faults c) (trace w) (call_now c).

Fixpoint serve (h : handler) (cs : list call) (w : world) : world :=
  match cs with
  | [] => w
  | c :: rest => serve h rest (snd (h (call_req c) (arrive c w)))
  end.

(** Every item's stock is at least zero. *)
Definition stock_nonneg (d : database) : Prop :=
  map_Forall (fun _ it => 0 <= stock it) (inventory d).

(** Statements that change [inventory], and statements that read it. *)
Definition writes_inventory (s : stmt) : bool :=
  match s with
  | InsertItem _ _ _ _ | DeleteItem _ | UpdateStockIf _ _
  | UpdateItemMalformed _ _ _ _ => true
  | _ => false
  end.

Definition reads_inventory (s : stmt) : bool :=
  match s with
  | SelectItem _ | SelectStock _ => true
  | _ => false
  end.

(** The statements of [log] sent before the first one that writes
    [inventory]. *)
Fixpoint before_first_write (log : list stmt) : list stmt :=
  match log with
  | [] => []
  | s :: rest => if writes_inventory s then [] else s :: before_first_write rest
  end.

(** A world at rest: no transaction open, no failure scheduled. *)
Definition idle (d : database) (t : Z) : world := mk_world d None [] [] t.

End Server.
Export Server.

(** ** What the middlewares decide

    Each middleware either answers or passes a request on, and none of
    them touches the tables.  These functions give their decision; the
    lemmas [authorizeAdmin_eval], [validateIdParam_eval] and
    [verifyToken_eval] below relate them to the middlewares. *)

Definition is_admin (req : request) : bool :=
  match user req with
  | Some u => bool_decide (pl_role u = Some "admin")
  | None => false
  end.

Definition valid_id (req : request) : option Z :=
  match parseInt (params_id req) with
  | Some id => if id <=? 0 then None else Some id
  | None => None
  end.

Definition token_check `{Environment} (req : request) (t : Z) : step :=
  match authorization req with
  | None => Answer (mk_resp 401 (Message "No token provided"))
  | Some auth =>
      if String.eqb auth ""
      then Answer (mk_resp 401 (Message "No token provided"))
      else
        match App.bearer auth with
        | JStr s =>
            match jwt_verify s ACCESS_TOKEN t with
            | Some p => Next (with_user p req)
            | None => Answer (mk_resp 403 (Message "Invalid token"))
            end
        | _ => Answer (mk_resp 403 (Message "Invalid token"))
        end
  end.

(** ** A small environment to run the handlers in

    Tokens are readable strings [secret.role.id.expiry]; a token verifies
    under the secret it starts with, until the second it expires at.
    Password hashes are the password behind a fixed prefix.  Nothing here
    is secure; it serves to evaluate the handlers on examples. *)

Module Toy.

Definition sign (p : payload) (secret : string) (expiresIn t : Z) : string :=
  secret +:+ "." +:+ default "" (pl_role p) +:+ "." +:+ pretty (pl_id p)
  +:+ "." +:+ pretty (t `div` 1000 + expiresIn).

Definition verify (token secret : string) (t : Z) : option payload :=
  match split token "." with
  | [k; r; i; e] =>
      if String.eqb k secret then
        match parseInt i, parseInt e with
        | Some id, Some exp =>
            if t `div` 1000 <? exp
            then Some (mk_payload id
                         (if String.eqb r "" then None else Some r))
            else None
        | _, _ => None
        end
      else None
  | _ => None
  end.

Definition hash (password : string) : string := "$2b$10$" +:+ password.

Definition compare (data : jsval) (h : string) : option bool :=
  match data with
  | JStr s => Some (String.eqb (hash s) h)
  | _ => None
  end.

Definition env : Environment :=
  mk_env sign verify compare "access-secret" "refresh-secret".

(** Two users, a few items, nothing else. *)
Definition alice : user_row := mk_user 1 "alice" (hash "pw1") "user".
Definition root : user_row := mk_user 2 "root" (hash "toor") "admin".

Definition shop : database :=
  mk_db [alice; root] []
    (<[1 := mk_item "pen" 3 (Some 120)]>
       (<[2 := mk_item "ink" 0 None]> ∅))
    [].

Definition as_user : payload := mk_payload 1 (Some "user").
Definition as_admin : payload := mk_payload 2 (Some "admin").

(** A request to [/inventory/...] once [verifyToken] has let it through. *)
Definition request_of (who : payload) (id : string)
  (fields : list (string * jsval)) : request :=
  mk_req None id (list_to_map fields) (Some who) JUndefined.

(** A request to the routes of [app.js]. *)
Definition post (fields : list (string * jsval)) : request :=
  mk_req None "" (list_to_map fields) None JUndefined.

Definition bearing (token : string) : request :=
  mk_req (Some ("Bearer " +:+ token)) "" ∅ None JUndefined.

(** A request to [/inventory/...] as it reaches the application. *)
Definition authorized (token id : string) (fields : list (string * jsval))
  : request :=
  mk_req (Some ("Bearer " +:+ token)) id (list_to_map fields) None JUndefined.

(** Buying [n] units of item [id] as alice. *)
Definition buy (id : string) (n : Z) : request :=
  request_of as_user id [("quantity", JNum n)].

(** Four purchases of two pens out of three: the first loses its INSERT,
    the second its COMMIT, the third goes through, the fourth finds one
    pen left. *)
Definition rush : list call :=
  [ mk_call (buy "1" 2) [false; false; false; true] 10;
    mk_call (buy "1" 2) [false; false; false; false; true] 20;
    mk_call (buy "1" 2) [] 30;
    mk_call (buy "1" 2) [] 40 ].

Definition credentials (username password : string) : request :=
  post [("username", JStr username); ("password", JStr password)].

(** The tokens alice gets when she logs in at time 0, and the world
    after that login. *)
Definition access_token : string :=
  sign (mk_payload 1 (Some "user")) "access-secret" 3600 0.
Definition refresh_token : string :=
  sign (mk_payload 1 None) "refresh-secret" 604800 0.

Definition logged_in : world :=
  snd (App.login (env := env) (credentials "alice" "pw1") (idle shop 0)).

Definition new_item (id : Z) (name : string) (stock : Z) : request :=
  request_of as_admin ""
    [("id", JNum id); ("name", JStr name); ("stock", JNum stock)].

End Toy.

(** ** The rest of the routes, and the provisioning script

    [POST /signup] of [app.js], [GET /] of [routes/posts.js] and the
    script that creates the administrator accounts.  Their statements
    have no constructor in [stmt]: they meet the failure schedule like any
    other statement and leave the trace alone. *)

(** [bcrypt.hash(data, rounds)]: [None] when the library rejects its
    arguments. *)
Class Hashing : Type := mk_hashing
  { bcrypt_hash : jsval -> Z -> option string }.

Module Accounts.

(** [await pool.query(text, params)] for the statements below. *)
Definition query {A} (run : database -> js_error + (A * database)) : M A :=
  fun w =>
    let w1 := mk_world (db w) (txn w) (tail (faults w)) (trace w) (now w) in
    if fails_next w then (Throw StorageError, w1)
    else
      match run (db w) with
      | inl e => (Throw e, w1)
      | inr (a, d) => (Ok a, with_db d w1)
      end.

(** Modelled from the spec: [users.id] is assigned by the table; here the
    next id is one above the largest id present. *)
Definition next_user_id (d : database) : Z :=
  1 + foldr Z.max 0 (u_id <$> users d).

(** [SELECT id FROM users WHERE username = ? LIMIT 1] *)
Definition select_user_id_by_name (username : jsval) (d : database) : list Z :=
  u_id <$> select_user_by_name username d.

(** [SELECT * FROM users WHERE username = ?] *)
Definition select_users_by_name (username : jsval) (d : database)
  : list user_row :=
  filter (fun u => str_matches username (u_username u) = true) (users d).

(** [INSERT INTO users (username, password, role) VALUES (?, ?, ?)].
    Modelled from the spec: [username] is unique (section 3), so a second
    row with a name already present raises ER_DUP_ENTRY; [created_at] is
    not part of [user_row]. *)
Definition insert_user (username : jsval) (password role : string)
  (d : database) : js_error + database :=
  match as_str username with
  | Some n =>
      if bool_decide (n ∈ u_username <$> users d) then inl ER_DUP_ENTRY
      else inr (mk_db (users d ++ [mk_user (next_user_id d) n password role])
                  (refresh_tokens d) (inventory d) (purchases d))
  | None => inl StorageError
  end.

(** [await bcrypt.hash(password, rounds)] *)
Definition hash `{Hashing} (password : jsval) (rounds : Z) : M string :=
  match bcrypt_hash password rounds with
  | Some h => ret h
  | None => throw BcryptError
  end.

(** Signup route. *)
Definition signup `{Hashing} : handler := fun req =>
  let username := field req "username" in
  let password := field req "password" in
  if negb (truthy username) || negb (truthy password)
  then respond 400 (Message "Username and password required")
  else
    try_catch
      (let* existing := query (reading (select_user_id_by_name username)) in
       match existing with
       | _ :: _ => respond 400 (Message "Username already taken")
       | [] =>
           let* hashedPassword := hash password 10 in
           query (checked_writing (insert_user username hashedPassword "user"));;
           respond 201 (Message "Signup successful, please login")
       end)
      (fun err => respond 500 (Message "Database error")).

(** The script [createUsers]: the accounts to create, as
    (username, password, role). *)
Definition usersToCreate : list (string * string * string) :=
  [ ("admin2", "admin2@123", "admin");
    ("superadmin", "super@123", "admin") ].

(** The body of [for (const user of usersToCreate)]. *)
Fixpoint create_each `{Hashing} (us : list (string * string * string))
  : M unit :=
  match us with
  | [] => ret tt
  | (username, password, role) :: rest =>
      let* existing :=
        query (reading (select_users_by_name (JStr username))) in
      if (0 <? length existing)%nat then create_each rest
      else
        let* hashedPassword := hash (JStr password) 10 in
        query (checked_writing
                 (insert_user (JStr username) hashedPassword role));;
        create_each rest
  end.

(** [createUsers()]: the result is the code given to [process.exit]. *)
Definition createUsers `{Hashing} : M Z :=
  try_catch (create_each usersToCreate;; ret 0) (fun err => ret 1).

End Accounts.
Export Accounts.

Module Listing.

(** [SELECT * FROM inventory].  Modelled from the spec: the rows come in
    an order that is not specified but is the same at every call; here it
    is the order in which the table enumerates its keys. *)
Definition select_inventory (d : database) : list inventory_row :=
  (fun p => row_of p.1 p.2) <$> map_to_list (inventory d).

(** [SELECT * FROM inventory LIMIT ?] *)
Definition select_inventory_limit (limit : Z) (d : database)
  : list inventory_row :=
  take (Z.to_nat limit) (select_inventory d).

(** What [GET /] sends: [res.json(rows)], or an error document. *)
Inductive listing : Type :=
| Rows (rows : list inventory_row)
| Refused (r : response).

(** READ all items: [router.get("/", ...)].  The argument is
    [req.query.limit], [None] when the query string has no limit;
    [parseInt(undefined)] reads the string "undefined". *)
Definition list_items (query_limit : option string) : M listing :=
  let limit := parseInt (default "undefined" query_limit) in
  let positive := match limit with Some n => 0 <? n | None => false end in
  try_catch
    (let* rows :=
       query (reading (if positive
                       then select_inventory_limit (default 0 limit)
                       else select_inventory)) in
     ret (Rows rows))
    (fun err => ret (Refused (mk_resp 500 (Message "Database error")))).

End Listing.
Export Listing.

(** ** Quantities over the tables *)

(** The units of item [k] in stock, 0 when there is no such item. *)
Definition on_hand (k : Z) (d : database) : Z :=
  match inventory d !! k with
  | Some it => stock it
  | None => 0
  end.

(** The units of item [k] that the purchase rows account for. *)
Definition sold (k : Z) (rows : list purchase_row) : Z :=
  foldr (fun r acc => if p_item_id r =? k then p_quantity r + acc else acc)
    0 rows.

(** The first character is a decimal digit. *)
Definition starts_with_digit (s : string) : bool :=
  match s with
  | EmptyString => false
  | String c _ => bool_decide (is_Some (digit_val 10 c))
  end.

(** No character is a space. *)
Fixpoint no_space (s : string) : bool :=
  match s with
  | EmptyString => true
  | String c r => negb (Ascii.eqb c " ") && no_space r
  end.

(** An environment to run the added routes in. *)
Module Demo.

Definition hashing : Hashing :=
  mk_hashing (fun data _ =>
                match data with
                | JStr s => Some (Toy.hash s)
                | _ => None
                end).

Definition signup_request (username password : string) : request :=
  Toy.post [("username", JStr username); ("password", JStr password);
            ("role", JStr "admin")].

End Demo.

(** * Properties *)

(** Case analysis along the control flow of a handler: destruct what the
    next [match] or [if] inspects, innermost first. *)
Ltac run_handler :=
  repeat (simpl in *;
    match goal with
    | |- context [match ?x with _ => _ end] =>
        lazymatch x with
        | context [match _ with _ => _ end] => fail
        | _ => destruct x eqn:?
        end
    end);
  simpl in *.

Ltac unfold_monad :=
  unfold try_catch, bind, getConnection, beginTransaction, statement,
    commit, rollback, respond, answer, next, ret, throw, clock, fails_next, sent, with_txn,
    with_db, checked_writing, reading, writing in *.

(** ** The conditional decrement *)

Lemma update_stock_if_applies q k d it :
  inventory d !! k = Some it ->
  update_stock_if (JNum q) (JNum k) d =
    inr (if q <=? stock it
         then (1, set_inventory
                    (insert k (mk_item (item_name it) (stock it - q) (price it)))
                    d)
         else (0, d)).
Proof.
  intros Hk. unfold update_stock_if. simpl. rewrite Hk.
  by destruct (q <=? stock it).
Qed.

Lemma update_stock_if_nonneg q k d n d' :
  stock_nonneg d -> update_stock_if q k d = inr (n, d') -> stock_nonneg d'.
Proof.
  unfold update_stock_if, stock_nonneg. intros Hd H.
  destruct (as_int q) as [qz|]; [|discriminate].
  destruct (as_int k) as [kz|]; [|by inversion H; subst].
  destruct (inventory d !! kz) as [it|] eqn:Hk; [|by inversion H; subst].
  destruct (qz <=? stock it) eqn:Hle; inversion H; subst; [|done].
  simpl. apply map_Forall_insert_2; [|done]. simpl. lia.
Qed.

Lemma insert_purchase_inventory k q u d d' :
  insert_purchase k q u d = inr d' -> inventory d' = inventory d.
Proof.
  unfold insert_purchase. destruct (as_int k), (as_int q); intros H;
    inversion H; subst; done.
Qed.

Lemma insert_purchase_nonneg k q u d d' :
  stock_nonneg d -> insert_purchase k q u d = inr d' -> stock_nonneg d'.
Proof.
  unfold stock_nonneg. intros Hd H.
  by rewrite (insert_purchase_inventory _ _ _ _ _ H).
Qed.

(** One purchase keeps every stock at or above zero and leaves no
    transaction open, whatever fails on the way. *)
Lemma purchase_preserves req w :
  txn w = None -> stock_nonneg (db w) ->
  txn (snd (purchase req w)) = None /\ stock_nonneg (db (snd (purchase req w))).
Proof.
  destruct w as [d t fs tr n]. simpl. intros -> Hd.
  unfold purchase.
  destruct (negb (truthy (field req "quantity"))
            || le_num (field req "quantity") 0); [done|].
  unfold_monad. run_handler.
  all: split; [reflexivity|]; try assumption.
  all: eauto using update_stock_if_nonneg, insert_purchase_nonneg.
Qed.

Lemma route_cons m ms h req w :
  route (m :: ms) h req w =
    match m req w with
    | (Ok (Next req'), w') => route ms h req' w'
    | (Ok (Answer r), w') => (Ok r, w')
    | (Throw e, w') => (Throw e, w')
    end.
Proof. simpl. unfold bind. by destruct (m req w) as [[[?|?]|?] ?]. Qed.

(** What the two middlewares in front of the purchase handler let
    through. *)
Lemma POST_purchase_id_cases req w :
  (exists r, POST_purchase_id req w = (Ok r, w) /\ status r <> 200)
  \/ (exists id, parseInt (params_id req) = Some id /\ 0 < id
       /\ POST_purchase_id req w = purchase (with_itemId id req) w).
Proof.
  unfold POST_purchase_id. rewrite route_cons. unfold authorizeUser.
  destruct (user req) as [u|]; [|left; by eexists].
  destruct (decide (pl_role u = Some "admin")); [left; by eexists|].
  unfold next, ret. rewrite route_cons. unfold validateIdParam.
  destruct (parseInt (params_id req)) as [id|]; [|left; by eexists].
  destruct (id <=? 0) eqn:Hid; [left; by eexists|].
  right. exists id. split; [done|]. split; [lia|done].
Qed.

Lemma route_purchase_preserves req w :
  txn w = None -> stock_nonneg (db w) ->
  txn (snd (POST_purchase_id req w)) = None
  /\ stock_nonneg (db (snd (POST_purchase_id req w))).
Proof.
  intros Ht Hd.
  destruct (POST_purchase_id_cases req w) as [(r & -> & _)|(id & _ & _ & ->)];
    [done|].
  by apply purchase_preserves.
Qed.

Lemma serve_purchases_nonneg cs w :
  txn w = None -> stock_nonneg (db w) ->
  txn (serve POST_purchase_id cs w) = None
  /\ stock_nonneg (db (serve POST_purchase_id cs w)).
Proof.
  revert w. induction cs as [|c cs IH]; intros w Ht Hd; [done|].
  simpl. apply IH; by apply route_purchase_preserves.
Qed.

(** The statements one purchase sends. *)
Lemma purchase_trace req w :
  exists log,
    trace (snd (purchase req w)) = trace w ++ log
    /\ (List.filter writes_inventory log = []
        \/ List.filter writes_inventory log
           = [UpdateStockIf (field req "quantity") (itemId req)])
    /\ List.filter reads_inventory (before_first_write log) = [].
Proof.
  destruct w as [d t fs tr n]. unfold purchase.
  destruct (negb (truthy (field req "quantity"))
            || le_num (field req "quantity") 0).
  { exists []. simpl. rewrite app_nil_r. auto. }
  unfold_monad. run_handler.
  all: eexists; split;
    [first [exact (eq_sym (app_nil_r _))
           | rewrite <- ?app_assoc; simpl; reflexivity]|].
  all: simpl; auto.
Qed.

(** ** What a purchase answers and what it leaves behind *)

Lemma POST_purchase_id_user req w u k :
  user req = Some u -> pl_role u <> Some "admin" ->
  parseInt (params_id req) = Some k -> 0 < k ->
  POST_purchase_id req w = purchase (with_itemId k req) w.
Proof.
  intros Hu Hr Hp Hk. unfold POST_purchase_id. rewrite route_cons.
  unfold authorizeUser. rewrite Hu. destruct (decide _); [done|].
  unfold next, ret. rewrite route_cons. unfold validateIdParam. rewrite Hp.
  destruct (k <=? 0) eqn:E; [lia|done].
Qed.


Lemma purchase_invalid_quantity req w n :
  field req "quantity" = JNum n -> n <= 0 ->
  purchase req w = (Ok (mk_resp 400 (Message "Invalid quantity")), w).
Proof.
  intros Hq Hn. unfold purchase. rewrite Hq. unfold le_num. simpl.
  destruct (n =? 0) eqn:E0; [done|]. simpl.
  destruct (n <=? 0) eqn:E1; [done|lia].
Qed.

Lemma purchase_valid_quantity req n :
  field req "quantity" = JNum n -> 0 < n ->
  negb (truthy (field req "quantity")) || le_num (field req "quantity") 0
  = false.
Proof.
  intros -> Hn. unfold le_num. simpl.
  destruct (n =? 0) eqn:E0; [lia|]. destruct (n <=? 0) eqn:E1; [lia|done].
Qed.

Lemma purchase_not_found req w n k :
  field req "quantity" = JNum n -> 0 < n -> itemId req = JNum k ->
  faults w = [] -> inventory (db w) !! k = None ->
  exists w', purchase req w = (Ok (mk_resp 404 (Message "Item not found")), w')
             /\ db w' = db w /\ txn w' = None.
Proof.
  destruct w as [d t fs tr c]. simpl. intros Hq Hn Hk -> Hi.
  unfold purchase. rewrite (purchase_valid_quantity _ _ Hq Hn), Hq, Hk.
  unfold_monad. simpl. unfold update_stock_if, select_stock, select_item.
  simpl. repeat (rewrite Hi; simpl). by eexists.
Qed.

Lemma purchase_insufficient req w n k it :
  field req "quantity" = JNum n -> 0 < n -> itemId req = JNum k ->
  faults w = [] -> inventory (db w) !! k = Some it -> stock it < n ->
  exists w', purchase req w
             = (Ok (mk_resp 400 (Message "Insufficient stock")), w')
             /\ db w' = db w /\ txn w' = None.
Proof.
  destruct w as [d t fs tr c]. simpl. intros Hq Hn Hk -> Hi Hs.
  unfold purchase. rewrite (purchase_valid_quantity _ _ Hq Hn), Hq, Hk.
  unfold_monad. simpl. rewrite (update_stock_if_applies _ _ _ _ Hi).
  destruct (n <=? stock it) eqn:E; [lia|]. simpl.
  unfold select_stock, select_item. simpl. repeat (rewrite Hi; simpl).
  by eexists.
Qed.

Lemma purchase_success req w n k it :
  field req "quantity" = JNum n -> 0 < n -> itemId req = JNum k ->
  faults w = [] -> inventory (db w) !! k = Some it -> n <= stock it ->
  exists w', purchase req w = (Ok (mk_resp 200 (Purchased (JNum n) (JNum k))), w')
             /\ txn w' = None
             /\ db w' = mk_db (users (db w)) (refresh_tokens (db w))
                          (<[k := mk_item (item_name it) (stock it - n)
                                     (price it)]> (inventory (db w)))
                          (purchases (db w)
                           ++ [mk_purchase k n (pl_id <$> user req)]).
Proof.
  destruct w as [d t fs tr c]. simpl. intros Hq Hn Hk -> Hi Hs.
  unfold purchase. rewrite (purchase_valid_quantity _ _ Hq Hn), Hq, Hk.
  unfold_monad. simpl. rewrite (update_stock_if_applies _ _ _ _ Hi).
  destruct (n <=? stock it) eqn:E; [|lia]. simpl. by eexists.
Qed.

(** ** Middlewares *)

Lemma authorizeAdmin_eval req w :
  authorizeAdmin req w =
    (Ok (if is_admin req then Next req
         else Answer (mk_resp 403
                        (Message "Forbidden: Admin privilege required"))), w).
Proof.
  unfold authorizeAdmin, is_admin. destruct (user req) as [u|]; [|done].
  destruct (decide (pl_role u = Some "admin")) as [E|E].
  - by rewrite bool_decide_eq_true_2.
  - by rewrite bool_decide_eq_false_2.
Qed.

Lemma validateIdParam_eval req w :
  validateIdParam req w =
    (Ok (match valid_id req with
         | Some id => Next (with_itemId id req)
         | None => Answer (mk_resp 400 (Message "Invalid item ID"))
         end), w).
Proof.
  unfold validateIdParam, valid_id.
  destruct (parseInt (params_id req)) as [id|]; [|done].
  by destruct (id <=? 0).
Qed.

Lemma valid_id_pos req k : valid_id req = Some k -> 0 < k.
Proof.
  unfold valid_id. destruct (parseInt _) as [id|]; [|done].
  destruct (id <=? 0) eqn:E; [done|]. intros [= <-]. lia.
Qed.

Lemma valid_id_parse req k :
  parseInt (params_id req) = Some k -> 0 < k -> valid_id req = Some k.
Proof.
  unfold valid_id. intros -> Hk. destruct (k <=? 0) eqn:E; [lia|done].
Qed.

Lemma GET_id_eval req w :
  GET_id req w =
    match valid_id req with
    | Some id => get_item (with_itemId id req) w
    | None => (Ok (mk_resp 400 (Message "Invalid item ID")), w)
    end.
Proof.
  unfold GET_id. rewrite route_cons, validateIdParam_eval.
  by destruct (valid_id req).
Qed.

Lemma POST_root_eval req w :
  POST_root req w =
    if is_admin req then create_item req w
    else (Ok (mk_resp 403 (Message "Forbidden: Admin privilege required")), w).
Proof.
  unfold POST_root. rewrite route_cons, authorizeAdmin_eval.
  by destruct (is_admin req).
Qed.

Lemma PUT_id_eval req w :
  PUT_id req w =
    if is_admin req then
      match valid_id req with
      | Some id => update_item (with_itemId id req) w
      | None => (Ok (mk_resp 400 (Message "Invalid item ID")), w)
      end
    else (Ok (mk_resp 403 (Message "Forbidden: Admin privilege required")), w).
Proof.
  unfold PUT_id. rewrite route_cons, authorizeAdmin_eval.
  destruct (is_admin req); [|done].
  rewrite route_cons, validateIdParam_eval. by destruct (valid_id req).
Qed.

Lemma DELETE_id_eval req w :
  DELETE_id req w =
    if is_admin req then
      match valid_id req with
      | Some id => delete_item_handler (with_itemId id req) w
      | None => (Ok (mk_resp 400 (Message "Invalid item ID")), w)
      end
    else (Ok (mk_resp 403 (Message "Forbidden: Admin privilege required")), w).
Proof.
  unfold DELETE_id. rewrite route_cons, authorizeAdmin_eval.
  destruct (is_admin req); [|done].
  rewrite route_cons, validateIdParam_eval. by destruct (valid_id req).
Qed.

(** ** Reading, creating and deleting items *)

Lemma get_item_found req w k it :
  itemId req = JNum k -> faults w = [] -> inventory (db w) !! k = Some it ->
  exists w', get_item req w = (Ok (mk_resp 200 (Row (row_of k it))), w')
             /\ db w' = db w.
Proof.
  destruct w as [d t fs tr c]. simpl. intros Hk -> Hi.
  unfold get_item. rewrite Hk. unfold_monad. simpl. unfold select_item.
  simpl. rewrite Hi. by eexists.
Qed.

Lemma get_item_not_found req w k :
  itemId req = JNum k -> faults w = [] -> inventory (db w) !! k = None ->
  exists w', get_item req w = (Ok (mk_resp 404 (Message "Item not found")), w')
             /\ db w' = db w.
Proof.
  destruct w as [d t fs tr c]. simpl. intros Hk -> Hi.
  unfold get_item. rewrite Hk. unfold_monad. simpl. unfold select_item.
  simpl. rewrite Hi. by eexists.
Qed.

(** The answers of the create handler, case by case. *)
Lemma create_item_missing req w :
  negb (truthy (field req "id")) || negb (truthy (field req "name"))
  || is_undefined (field req "stock") = true ->
  create_item req w = (Ok (mk_resp 400 (Message "Missing fields")), w).
Proof. intros H. unfold create_item. by rewrite H. Qed.

Lemma create_item_not_missing req w :
  negb (truthy (field req "id")) || negb (truthy (field req "name"))
  || is_undefined (field req "stock") = false ->
  exists r w', create_item req w = (Ok r, w')
    /\ r <> mk_resp 400 (Message "Missing fields")
    /\ (status r = 201 ->
        exists k n s p,
          as_int (field req "id") = Some k
          /\ as_str (field req "name") = Some n
          /\ as_int (field req "stock") = Some s
          /\ as_nullable_int (field req "price") = Some p
          /\ inventory (db w) !! k = None
          /\ db w' = set_inventory (insert k (mk_item n s p)) (db w)).
Proof.
  intros H. destruct w as [d t fs tr c]. unfold create_item. rewrite H.
  unfold_monad. unfold insert_item. run_handler.
  all: eexists _, _; split; [reflexivity|]; split; [done|]; simpl; try done.
  all: try (intros _; by eexists _, _, _, _).
Qed.

Lemma create_item_created req w k n s p :
  field req "id" = JNum k -> k <> 0 ->
  field req "name" = JStr n -> n <> "" ->
  field req "stock" = JNum s ->
  as_nullable_int (field req "price") = Some p ->
  faults w = [] -> inventory (db w) !! k = None ->
  exists w',
    create_item req w
    = (Ok (mk_resp 201 (Created (JNum k) (JStr n) (JNum s) (field req "price")
                          "Item added successfully")), w')
    /\ db w' = set_inventory (insert k (mk_item n s p)) (db w).
Proof.
  destruct w as [d t fs tr c]. simpl. intros Hid Hk Hname Hn Hs Hp -> Hi.
  unfold create_item. rewrite Hid, Hname, Hs. simpl.
  destruct (k =? 0) eqn:E; [lia|]. simpl.
  destruct (String.eqb n "") eqn:En; [by apply String.eqb_eq in En|]. simpl.
  unfold_monad. simpl. unfold insert_item. simpl. rewrite Hp, Hi. simpl.
  by eexists.
Qed.

Lemma delete_item_handler_deleted req w r w' k :
  itemId req = JNum k ->
  delete_item_handler req w = (Ok r, w') -> status r = 200 ->
  inventory (db w') !! k = None.
Proof.
  destruct w as [d t fs tr c]. intros Hk. unfold delete_item_handler.
  rewrite Hk. unfold_monad. unfold select_item, delete_item. simpl.
  intros H. revert H. run_handler.
  all: intros [= <- <-]; simpl; try done.
  all: intros _; apply lookup_delete_eq.
Qed.

(** The update handler answers 500 before it sends anything. *)
Lemma update_item_eval req w :
  update_item req w = (Ok (mk_resp 500 (Message "Database error")), w).
Proof. reflexivity. Qed.

(** ** Tokens and credentials *)

Section AppProperties.

Context {env : Environment}.

Lemma verifyToken_eval req w :
  App.verifyToken req w = (Ok (token_check req (now w)), w).
Proof.
  unfold App.verifyToken, token_check.
  destruct (authorization req) as [auth|]; [|done].
  destruct (String.eqb auth ""); [done|].
  unfold App.verify. unfold_monad.
  destruct (App.bearer auth); try done.
  by destruct (jwt_verify s ACCESS_TOKEN (now w)).
Qed.

Lemma bearer_nonempty auth s : App.bearer auth = JStr s -> auth <> "".
Proof. by intros H ->. Qed.

(** *** Logout *)

Lemma logout_eval req w :
  truthy (field req "token") = true -> fails_next w = false ->
  App.logout req w
  = (Ok (mk_resp 200 (Message "Logged out successfully")),
     with_db (delete_refresh_token (field req "token") (db w))
       (sent (DeleteRefreshToken (field req "token")) w)).
Proof.
  intros Ht Hf. unfold App.logout. rewrite Ht. simpl.
  unfold_monad. by rewrite Hf.
Qed.

Lemma delete_refresh_token_idem tok d :
  delete_refresh_token tok (delete_refresh_token tok d)
  = delete_refresh_token tok d.
Proof.
  unfold delete_refresh_token, set_refresh_tokens. simpl. f_equal.
  by apply list_filter_filter_l.
Qed.

Lemma delete_refresh_token_absent tok d :
  Forall (fun t => str_matches tok (t_token t) = false) (refresh_tokens d) ->
  delete_refresh_token tok d = d.
Proof.
  destruct d as [us ts inv ps]. unfold delete_refresh_token,
    set_refresh_tokens. simpl. intros H. f_equal.
  induction H as [|t l Ht _ IH]; [done|].
  rewrite filter_cons_True; [by rewrite IH|]. by rewrite Ht.
Qed.

Lemma delete_refresh_token_gone tok d :
  Forall (fun t => str_matches tok (t_token t) = false)
    (refresh_tokens (delete_refresh_token tok d)).
Proof.
  unfold delete_refresh_token. simpl. apply Forall_forall.
  intros t [Ht _]%list_elem_of_filter. by destruct (str_matches _ _).
Qed.

Lemma select_refresh_token_absent uid tok d :
  Forall (fun t => str_matches tok (t_token t) = false) (refresh_tokens d) ->
  select_refresh_token uid tok d = [].
Proof.
  unfold select_refresh_token. intros H.
  induction H as [|t l Ht _ IH]; [done|].
  rewrite filter_cons_False; [done|]. intros [_ E]. congruence.
Qed.

Lemma select_refresh_token_gone uid tok d :
  select_refresh_token uid tok (delete_refresh_token tok d) = [].
Proof.
  apply select_refresh_token_absent, delete_refresh_token_gone.
Qed.

(** *** Refresh *)

Lemma refresh_eval req w tok p :
  field req "token" = JStr tok -> tok <> "" ->
  jwt_verify tok REFRESH_TOKEN (now w) = Some p -> faults w = [] ->
  exists w',
    App.refresh req w =
      (Ok match select_refresh_token (pl_id p) (JStr tok) (db w) with
          | [] => mk_resp 403 (Message "Invalid refresh token")
          | _ :: _ =>
              match select_user_by_id (pl_id p) (db w) with
              | [] => mk_resp 404 (Message "User not found")
              | u :: _ =>
                  mk_resp 200
                    (Access (jwt_sign (mk_payload (u_id u) (Some (u_role u)))
                               ACCESS_TOKEN 3600 (now w)))
              end
          end, w')
    /\ db w' = db w.
Proof.
  destruct w as [d t fs tr c]. simpl. intros Ht Hne Hv ->.
  unfold App.refresh. rewrite Ht. simpl.
  destruct (String.eqb tok "") eqn:E; [by apply String.eqb_eq in E|]. simpl.
  unfold App.verify, App.sign. unfold_monad. simpl. rewrite Hv. simpl.
  destruct (select_refresh_token (pl_id p) (JStr tok) d); simpl;
    [by eexists|].
  destruct (select_user_by_id (pl_id p) d); simpl; by eexists.
Qed.

(** Once the rows of a token are deleted, refreshing with it answers 403,
    whatever else happens. *)
Lemma refresh_revoked req w tok :
  field req "token" = tok ->
  Forall (fun t => str_matches tok (t_token t) = false)
    (refresh_tokens (db w)) ->
  truthy tok = true ->
  exists w', App.refresh req w
             = (Ok (mk_resp 403 (Message "Invalid refresh token")), w')
             /\ db w' = db w.
Proof.
  destruct w as [d t fs tr c]. simpl. intros Ht Hgone Htr.
  unfold App.refresh. rewrite Ht, Htr. simpl.
  unfold App.verify, App.sign. unfold_monad. simpl.
  destruct tok as [| |b|z|s]; try done; try (by eexists).
  destruct (jwt_verify s REFRESH_TOKEN c) as [p|]; [|by eexists]. simpl.
  rewrite (select_refresh_token_absent _ _ _ Hgone).
  destruct fs as [|[|] fs]; simpl; by eexists.
Qed.

(** *** Login *)

Lemma login_unknown_user req w :
  truthy (field req "username") = true ->
  truthy (field req "password") = true ->
  fails_next w = false ->
  select_user_by_name (field req "username") (db w) = [] ->
  App.login req w
  = (Ok (mk_resp 401 (Message "Invalid username or password")),
     sent (SelectUserByName (field req "username")) w).
Proof.
  intros Hu Hp Hf Hs. unfold App.login. rewrite Hu, Hp. simpl.
  unfold_monad. rewrite Hf. simpl. rewrite Hs. by destruct w.
Qed.

Lemma login_wrong_password req w u rest :
  truthy (field req "username") = true ->
  truthy (field req "password") = true ->
  fails_next w = false ->
  select_user_by_name (field req "username") (db w) = u :: rest ->
  bcrypt_compare (field req "password") (u_password u) = Some false ->
  App.login req w
  = (Ok (mk_resp 401 (Message "Invalid username or password")),
     sent (SelectUserByName (field req "username")) w).
Proof.
  intros Hu Hp Hf Hs Hc. unfold App.login. rewrite Hu, Hp. simpl.
  unfold App.compare. unfold_monad. rewrite Hf. simpl. rewrite Hs, Hc.
  by destruct w.
Qed.

Lemma login_compare_rejects req w u rest :
  truthy (field req "username") = true ->
  truthy (field req "password") = true ->
  fails_next w = false ->
  select_user_by_name (field req "username") (db w) = u :: rest ->
  bcrypt_compare (field req "password") (u_password u) = None ->
  App.login req w
  = (Ok (mk_resp 500 (Message "Database error")),
     sent (SelectUserByName (field req "username")) w).
Proof.
  intros Hu Hp Hf Hs Hc. unfold App.login. rewrite Hu, Hp. simpl.
  unfold App.compare. unfold_monad. rewrite Hf. simpl. rewrite Hs, Hc.
  by destruct w.
Qed.

Lemma login_success req w u rest :
  truthy (field req "username") = true ->
  truthy (field req "password") = true ->
  faults w = [] ->
  select_user_by_name (field req "username") (db w) = u :: rest ->
  bcrypt_compare (field req "password") (u_password u) = Some true ->
  let a := jwt_sign (mk_payload (u_id u) (Some (u_role u))) ACCESS_TOKEN
             3600 (now w) in
  let r := jwt_sign (mk_payload (u_id u) None) REFRESH_TOKEN 604800
             (now w) in
  exists w',
    App.login req w = (Ok (mk_resp 200 (Session a r (u_role u))), w')
    /\ db w' = insert_refresh_token (u_id u) r
                 (now w + 7 * 24 * 60 * 60 * 1000) (db w).
Proof.
  destruct w as [d t fs tr c]. simpl. intros Hu Hp -> Hs Hc.
  unfold App.login. rewrite Hu, Hp. simpl.
  unfold App.compare, App.sign. unfold_monad. simpl. rewrite Hs, Hc. simpl.
  by eexists.
Qed.

End AppProperties.

(** ** The purchase transaction *)

(** Whatever a purchase does to [inventory], the conditional decrement did
    it. *)
Lemma purchase_inventory_effect req w :
  txn w = None ->
  inventory (db (snd (purchase req w))) = inventory (db w)
  \/ exists n d',
       update_stock_if (field req "quantity") (itemId req) (db w)
       = inr (n, d')
       /\ inventory (db (snd (purchase req w))) = inventory d'.
Proof.
  destruct w as [d t fs tr c]. simpl. intros ->. unfold purchase.
  destruct (negb (truthy (field req "quantity"))
            || le_num (field req "quantity") 0); [by left|].
  unfold_monad. run_handler.
  all: try (by left).
  all: right; eexists _, _; split; [reflexivity|].
  all: eauto using insert_purchase_inventory.
Qed.

Lemma valid_quantity_pos v q :
  negb (truthy v) || le_num v 0 = false -> as_int v = Some q -> 0 < q.
Proof.
  destruct v as [| |[]|n|s]; simpl; try done.
  - intros _ [= <-]. lia.
  - unfold le_num. simpl. intros H [= <-].
    destruct (n =? 0) eqn:E0; [done|]. destruct (n <=? 0) eqn:E1; [done|lia].
Qed.

(** What one purchase does to the tables, whatever fails: nothing, or one
    decrement and one row, and then the answer is 200.  When the connection
    cannot be had, or a ROLLBACK rejects, the handler sends no answer. *)
Lemma purchase_effect req w :
  txn w = None ->
  exists o w',
    purchase req w = (o, w') /\ txn w' = None
    /\ ((forall r, o = Ok r -> status r <> 200) /\ db w' = db w
        \/ exists k q it,
             o = Ok (mk_resp 200
                       (Purchased (field req "quantity") (itemId req)))
             /\ as_int (itemId req) = Some k
             /\ as_int (field req "quantity") = Some q
             /\ 0 < q /\ inventory (db w) !! k = Some it /\ q <= stock it
             /\ db w' = mk_db (users (db w)) (refresh_tokens (db w))
                          (<[k := mk_item (item_name it) (stock it - q)
                                     (price it)]> (inventory (db w)))
                          (purchases (db w)
                           ++ [mk_purchase k q (pl_id <$> user req)])).
Proof.
  destruct w as [d t fs tr c]. simpl. intros ->. unfold purchase.
  destruct (negb (truthy (field req "quantity"))
            || le_num (field req "quantity") 0) eqn:Hv.
  { eexists _, _. split; [reflexivity|]. split; [done|]. left.
    split; [|done]. by intros r [= <-]. }
  unfold update_stock_if, insert_purchase. unfold_monad. run_handler.
  all: eexists _, _; split; [reflexivity|]; split; [reflexivity|]; simpl.
  all: try (left; split; [by intros r0 [= <-]|done]).
  all: right; eexists _, _, _; split; [done|].
  all: repeat split; try eassumption; try lia.
  all: eapply valid_quantity_pos; eassumption.
Qed.

(** The same of the route: the two middlewares in front change nothing. *)
Lemma route_purchase_effect req w :
  txn w = None ->
  exists o w',
    POST_purchase_id req w = (o, w') /\ txn w' = None
    /\ ((forall r, o = Ok r -> status r <> 200) /\ db w' = db w
        \/ exists k q it,
             o = Ok (mk_resp 200 (Purchased (field req "quantity") (JNum k)))
             /\ parseInt (params_id req) = Some k /\ 0 < k
             /\ as_int (field req "quantity") = Some q
             /\ 0 < q /\ inventory (db w) !! k = Some it /\ q <= stock it
             /\ db w' = mk_db (users (db w)) (refresh_tokens (db w))
                          (<[k := mk_item (item_name it) (stock it - q)
                                     (price it)]> (inventory (db w)))
                          (purchases (db w)
                           ++ [mk_purchase k q (pl_id <$> user req)])).
Proof.
  intros Ht.
  destruct (POST_purchase_id_cases req w) as [(r & E & Hr)|(id & Hp & Hid & E)].
  { exists (Ok r), w. split; [done|]. split; [done|]. left.
    split; [|done]. by intros r0 [= <-]. }
  rewrite E.
  destruct (purchase_effect (with_itemId id req) w Ht)
    as (o & w' & E' & Ht' & [H|(k & q & it & Ho & Hk & Hq & H)]).
  { exists o, w'. by repeat split; [| |left]. }
  exists o, w'. split; [done|]. split; [done|]. right.
  simpl in Hk. injection Hk as <-. by exists id, q, it.
Qed.

(** The run of a purchase when nothing fails, statement by statement. *)
Lemma purchase_run_applied req w n k it :
  field req "quantity" = JNum n -> 0 < n -> itemId req = JNum k ->
  faults w = [] -> inventory (db w) !! k = Some it -> n <= stock it ->
  purchase req w
  = (Ok (mk_resp 200 (Purchased (JNum n) (JNum k))),
     mk_world
       (mk_db (users (db w)) (refresh_tokens (db w))
          (<[k := mk_item (item_name it) (stock it - n) (price it)]>
             (inventory (db w)))
          (purchases (db w) ++ [mk_purchase k n (pl_id <$> user req)]))
       None []
       (trace w ++ [Begin; UpdateStockIf (JNum n) (JNum k);
                    InsertPurchase (JNum k) (JNum n) (pl_id <$> user req);
                    Commit])
       (now w)).
Proof.
  destruct w as [d t fs tr c]. simpl. intros Hq Hn Hk -> Hi Hs.
  unfold purchase. rewrite (purchase_valid_quantity _ _ Hq Hn), Hq, Hk.
  unfold_monad. simpl. rewrite (update_stock_if_applies _ _ _ _ Hi).
  destruct (n <=? stock it) eqn:E; [|lia]. simpl.
  by rewrite <- !app_assoc.
Qed.

Lemma purchase_run_refused req w n k it :
  field req "quantity" = JNum n -> 0 < n -> itemId req = JNum k ->
  faults w = [] -> inventory (db w) !! k = Some it -> stock it < n ->
  purchase req w
  = (Ok (mk_resp 400 (Message "Insufficient stock")),
     mk_world (db w) None []
       (trace w ++ [Begin; UpdateStockIf (JNum n) (JNum k); Rollback;
                    SelectStock (JNum k)])
       (now w)).
Proof.
  destruct w as [d t fs tr c]. simpl. intros Hq Hn Hk -> Hi Hs.
  unfold purchase. rewrite (purchase_valid_quantity _ _ Hq Hn), Hq, Hk.
  unfold_monad. simpl. rewrite (update_stock_if_applies _ _ _ _ Hi).
  destruct (n <=? stock it) eqn:E; [lia|]. simpl.
  unfold select_stock, select_item. simpl. repeat (rewrite Hi; simpl).
  by rewrite <- !app_assoc.
Qed.

(** The run of a purchase that loses its INSERT, or its COMMIT, after the
    decrement has been applied: the handler rolls back and answers 500,
    unless the ROLLBACK rejects as well; the tables are as before the call
    either way. *)
Lemma purchase_run_insert_fails req w n k it fs :
  field req "quantity" = JNum n -> 0 < n -> itemId req = JNum k ->
  faults w = false :: false :: false :: true :: fs ->
  inventory (db w) !! k = Some it -> n <= stock it ->
  purchase req w
  = ((if hd false fs then Throw StorageError
      else Ok (mk_resp 500 (Message "Transaction failed"))),
     mk_world (db w) None (tail fs)
       (trace w ++ [Begin; UpdateStockIf (JNum n) (JNum k);
                    InsertPurchase (JNum k) (JNum n) (pl_id <$> user req);
                    Rollback])
       (now w)).
Proof.
  destruct w as [d t fs0 tr c]. simpl. intros Hq Hn Hk -> Hi Hs.
  unfold purchase. rewrite (purchase_valid_quantity _ _ Hq Hn), Hq, Hk.
  unfold_monad. simpl. rewrite (update_stock_if_applies _ _ _ _ Hi).
  destruct (n <=? stock it) eqn:E; [|lia]. simpl.
  rewrite <- !app_assoc. by destruct fs as [|[] fs].
Qed.

Lemma purchase_run_commit_fails req w n k it fs :
  field req "quantity" = JNum n -> 0 < n -> itemId req = JNum k ->
  faults w = false :: false :: false :: false :: true :: fs ->
  inventory (db w) !! k = Some it -> n <= stock it ->
  purchase req w
  = ((if hd false fs then Throw StorageError
      else Ok (mk_resp 500 (Message "Transaction failed"))),
     mk_world (db w) None (tail fs)
       (trace w ++ [Begin; UpdateStockIf (JNum n) (JNum k);
                    InsertPurchase (JNum k) (JNum n) (pl_id <$> user req);
                    Commit; Rollback])
       (now w)).
Proof.
  destruct w as [d t fs0 tr c]. simpl. intros Hq Hn Hk -> Hi Hs.
  unfold purchase. rewrite (purchase_valid_quantity _ _ Hq Hn), Hq, Hk.
  unfold_monad. simpl. rewrite (update_stock_if_applies _ _ _ _ Hi).
  destruct (n <=? stock it) eqn:E; [|lia]. simpl.
  rewrite <- !app_assoc. by destruct fs as [|[] fs].
Qed.

(** C1.  The decrement of a purchase applies exactly when the item's stock
    is at least the quantity.  Of the statement: the conditional UPDATE
    changes one row when the stock suffices and none otherwise, and run on
    any tables with no negative stock, whatever its parameters, it leaves
    no negative stock.  Of the handler: that UPDATE is the only statement
    of a purchase that writes [inventory], it is sent before the handler
    has read anything from that table, and whatever the purchase changes
    in [inventory] is what that statement changed; when nothing fails, a purchase of [q] units sends
    BEGIN and the UPDATE, and then, if the stock is at least [q], the
    INSERT and COMMIT, answers 200 and leaves the stock lower by [q], and
    otherwise rolls back, answers 400 "Insufficient stock" and leaves
    [inventory] as it was; whatever fails, [inventory] changes only
    together with the answer 200, and then the stock was at least the
    quantity and is lower by exactly that.  So no sequence of purchase
    requests, with whatever failures, takes a stock below zero. *)
Theorem purchase_stock_never_negative :
  (forall d k q it,
      inventory d !! k = Some it ->
      exists n d',
        update_stock_if (JNum q) (JNum k) d = inr (n, d')
        /\ (n = 1 <-> q <= stock it)
        /\ (q <= stock it ->
            d' = set_inventory
                   (insert k (mk_item (item_name it) (stock it - q) (price it)))
                   d)
        /\ (stock it < q -> n = 0 /\ d' = d))
  /\ (forall q k d n d',
         stock_nonneg d -> update_stock_if q k d = inr (n, d') ->
         stock_nonneg d')
  /\ (forall req w,
         exists log,
           trace (snd (purchase req w)) = trace w ++ log
           /\ (List.filter writes_inventory log = []
               \/ List.filter writes_inventory log
                  = [UpdateStockIf (field req "quantity") (itemId req)])
           /\ List.filter reads_inventory (before_first_write log) = [])
  /\ (forall req w,
         txn w = None ->
         inventory (db (snd (purchase req w))) = inventory (db w)
         \/ exists n d',
              update_stock_if (field req "quantity") (itemId req) (db w)
              = inr (n, d')
              /\ inventory (db (snd (purchase req w))) = inventory d')
  /\ (forall req w u k q it,
         user req = Some u -> pl_role u <> Some "admin" ->
         parseInt (params_id req) = Some k -> 0 < k ->
         field req "quantity" = JNum q -> 0 < q ->
         faults w = [] -> inventory (db w) !! k = Some it ->
         exists r w',
           POST_purchase_id req w = (Ok r, w')
           /\ (status r = 200 <-> q <= stock it)
           /\ (q <= stock it ->
               r = mk_resp 200 (Purchased (JNum q) (JNum k))
               /\ inventory (db w')
                  = <[k := mk_item (item_name it) (stock it - q) (price it)]>
                      (inventory (db w))
               /\ trace w'
                  = trace w ++ [Begin; UpdateStockIf (JNum q) (JNum k);
                                InsertPurchase (JNum k) (JNum q)
                                  (Some (pl_id u));
                                Commit])
           /\ (stock it < q ->
               r = mk_resp 400 (Message "Insufficient stock")
               /\ inventory (db w') = inventory (db w)
               /\ trace w'
                  = trace w ++ [Begin; UpdateStockIf (JNum q) (JNum k);
                                Rollback; SelectStock (JNum k)]))
  /\ (forall req w,
         txn w = None ->
         exists o w',
           POST_purchase_id req w = (o, w')
           /\ ((forall r, o = Ok r -> status r <> 200)
               /\ inventory (db w') = inventory (db w)
               \/ exists k q it,
                    o = Ok (mk_resp 200
                              (Purchased (field req "quantity") (JNum k)))
                    /\ parseInt (params_id req) = Some k
                    /\ as_int (field req "quantity") = Some q
                    /\ 0 < q /\ inventory (db w) !! k = Some it
                    /\ q <= stock it
                    /\ inventory (db w')
                       = <[k := mk_item (item_name it) (stock it - q)
                                  (price it)]> (inventory (db w))))
  /\ (forall cs w,
         txn w = None -> stock_nonneg (db w) ->
         stock_nonneg (db (serve POST_purchase_id cs w))).
Proof.
  split; [|split; [|split; [|split; [|split; [|split]]]]].
  - intros d k q it Hk. rewrite (update_stock_if_applies _ _ _ _ Hk).
    destruct (q <=? stock it) eqn:E; eexists _, _; (split; [reflexivity|]).
    + repeat split; try done; lia.
    + repeat split; try done; try lia.
  - intros q k d n d'. apply update_stock_if_nonneg.
  - apply purchase_trace.
  - apply purchase_inventory_effect.
  - intros req w u k q it Hu Hr Hp Hk Hq Hq0 Hf Hi.
    rewrite (POST_purchase_id_user _ _ _ _ Hu Hr Hp Hk).
    assert (Hq' : field (with_itemId k req) "quantity" = JNum q) by done.
    assert (Hid : itemId (with_itemId k req) = JNum k) by done.
    destruct (Z_le_gt_dec q (stock it)) as [Hs|Hs].
    + rewrite (purchase_run_applied _ _ _ _ _ Hq' Hq0 Hid Hf Hi Hs).
      eexists _, _. split; [reflexivity|]. simpl. rewrite Hu. simpl.
      split; [done|]. split; [done|]. intros; lia.
    + rewrite (purchase_run_refused _ _ _ _ _ Hq' Hq0 Hid Hf Hi ltac:(lia)).
      eexists _, _. split; [reflexivity|]. simpl.
      split; [split; [done|lia]|]. split; [intros; lia|done].
  - intros req w Ht.
    destruct (route_purchase_effect req w Ht)
      as (o & w' & E & _ & [[Ho Hd]|(k & q & it & Ho & Hp & _ & Hq & Hq0
                                     & Hi & Hs & Hd)]);
      exists o, w'; (split; [done|]).
    + left. by rewrite Hd.
    + right. exists k, q, it. rewrite Hd. by repeat split.
  - intros cs w Ht Hd. by apply serve_purchases_nonneg.
Qed.

(** C2.  A purchase is all or nothing.  Whatever fails, it leaves no
    transaction open, and either the tables (stock and purchase history
    among them) are exactly as before the call and the answer, if there is
    one, is not 200, or the answer is 200 and the tables have both the
    decrement and the one new purchase row.  In particular, when the
    decrement has been applied and the INSERT of the purchase row fails,
    or the INSERT goes through and the COMMIT fails, the handler sends
    ROLLBACK, the tables are as before the call, and the answer is 500
    "Transaction failed" (there is no answer when that ROLLBACK rejects as
    well).  The schedules read: the connection, BEGIN and the UPDATE go
    through, then the INSERT fails, or goes through and the COMMIT fails;
    the next entry, if any, is the ROLLBACK. *)
Theorem purchase_all_or_nothing req w :
  txn w = None ->
  exists o w',
    POST_purchase_id req w = (o, w')
    /\ txn w' = None
    /\ ((forall r, o = Ok r -> status r <> 200) /\ db w' = db w
        \/ exists k q it,
             o = Ok (mk_resp 200 (Purchased (field req "quantity") (JNum k)))
             /\ parseInt (params_id req) = Some k /\ 0 < k
             /\ as_int (field req "quantity") = Some q
             /\ 0 < q /\ inventory (db w) !! k = Some it /\ q <= stock it
             /\ db w' = mk_db (users (db w)) (refresh_tokens (db w))
                          (<[k := mk_item (item_name it) (stock it - q)
                                     (price it)]> (inventory (db w)))
                          (purchases (db w)
                           ++ [mk_purchase k q (pl_id <$> user req)]))
    /\ (forall u k q it,
          user req = Some u -> pl_role u <> Some "admin" ->
          parseInt (params_id req) = Some k -> 0 < k ->
          field req "quantity" = JNum q -> 0 < q ->
          inventory (db w) !! k = Some it -> q <= stock it ->
          (forall fs,
              faults w = false :: false :: false :: true :: fs ->
              o = (if hd false fs then Throw StorageError
                   else Ok (mk_resp 500 (Message "Transaction failed")))
              /\ db w' = db w
              /\ trace w'
                 = trace w ++ [Begin; UpdateStockIf (JNum q) (JNum k);
                               InsertPurchase (JNum k) (JNum q)
                                 (Some (pl_id u));
                               Rollback])
          /\ (forall fs,
                faults w = false :: false :: false :: false :: true :: fs ->
                o = (if hd false fs then Throw StorageError
                     else Ok (mk_resp 500 (Message "Transaction failed")))
                /\ db w' = db w
                /\ trace w'
                   = trace w ++ [Begin; UpdateStockIf (JNum q) (JNum k);
                                 InsertPurchase (JNum k) (JNum q)
                                   (Some (pl_id u));
                                 Commit; Rollback])).
Proof.
  intros Ht.
  destruct (route_purchase_effect req w Ht) as (o & w' & E & Ht' & H).
  exists o, w'. split; [done|]. split; [done|]. split; [done|].
  intros u k q it Hu Hr Hp Hk Hq Hq0 Hi Hs.
  rewrite (POST_purchase_id_user _ _ _ _ Hu Hr Hp Hk) in E.
  assert (Hq' : field (with_itemId k req) "quantity" = JNum q) by done.
  assert (Hid : itemId (with_itemId k req) = JNum k) by done.
  split; intros fs Hf.
  - rewrite (purchase_run_insert_fails _ _ _ _ _ _ Hq' Hq0 Hid Hf Hi Hs) in E.
    injection E as <- <-. simpl. by rewrite Hu.
  - rewrite (purchase_run_commit_fails _ _ _ _ _ _ Hq' Hq0 Hid Hf Hi Hs) in E.
    injection E as <- <-. simpl. by rewrite Hu.
Qed.

(** C3.  For a logged-in user who is not an admin and a valid item id,
    with no storage failure: a quantity that is zero or negative is
    answered 400 "Invalid quantity"; a positive quantity is answered 404
    "Item not found" when the item does not exist and 400 "Insufficient
    stock" when its stock is smaller, the tables unchanged in all three
    cases; and when the stock suffices the answer is 200, the stock is
    lower by exactly the quantity and exactly one purchase record is
    appended. *)
Theorem purchase_outcomes req w u k n :
  user req = Some u -> pl_role u <> Some "admin" ->
  parseInt (params_id req) = Some k -> 0 < k ->
  field req "quantity" = JNum n ->
  faults w = [] ->
  exists r w',
    POST_purchase_id req w = (Ok r, w')
    /\ (n <= 0 ->
        r = mk_resp 400 (Message "Invalid quantity") /\ db w' = db w)
    /\ (0 < n -> inventory (db w) !! k = None ->
        r = mk_resp 404 (Message "Item not found") /\ db w' = db w)
    /\ (forall it,
          0 < n -> inventory (db w) !! k = Some it -> stock it < n ->
          r = mk_resp 400 (Message "Insufficient stock") /\ db w' = db w)
    /\ (forall it,
          0 < n -> inventory (db w) !! k = Some it -> n <= stock it ->
          r = mk_resp 200 (Purchased (JNum n) (JNum k))
          /\ db w' = mk_db (users (db w)) (refresh_tokens (db w))
                       (<[k := mk_item (item_name it) (stock it - n)
                                  (price it)]> (inventory (db w)))
                       (purchases (db w) ++ [mk_purchase k n (Some (pl_id u))])).
Proof.
  intros Hu Hr Hp Hk Hq Hf.
  rewrite (POST_purchase_id_user _ _ _ _ Hu Hr Hp Hk).
  assert (Hq' : field (with_itemId k req) "quantity" = JNum n) by done.
  assert (Hid : itemId (with_itemId k req) = JNum k) by done.
  destruct (Z_le_gt_dec n 0) as [Hn|Hn].
  { rewrite (purchase_invalid_quantity _ _ _ Hq' Hn). eexists _, _.
    split; [reflexivity|]. repeat split; intros; try done; lia. }
  destruct (inventory (db w) !! k) as [it|] eqn:Hi.
  - destruct (Z_le_gt_dec n (stock it)) as [Hs|Hs].
    + destruct (purchase_success _ _ _ _ _ Hq' ltac:(lia) Hid Hf Hi Hs)
        as (w' & -> & _ & Hdb).
      eexists _, _. split; [reflexivity|].
      split; [intros; lia|]. split; [intros; done|].
      split; intros it' ? [= <-] ?; [lia|]. split; [done|].
      rewrite Hdb. simpl. by rewrite Hu.
    + destruct (purchase_insufficient _ _ _ _ _ Hq' ltac:(lia) Hid Hf Hi
                  ltac:(lia)) as (w' & -> & Hdb & _).
      eexists _, _. split; [reflexivity|].
      split; [intros; lia|]. split; [intros; done|].
      split; intros it' ? [= <-] ?; [done|lia].
  - destruct (purchase_not_found _ _ _ _ Hq' ltac:(lia) Hid Hf Hi)
      as (w' & -> & Hdb & _).
    eexists _, _. split; [reflexivity|].
    split; [intros; lia|]. split; [done|]. split; intros; done.
Qed.

(** C4.  The update handler never updates: it answers 500 "Database error"
    for every request and sends no statement, so the route answers 403,
    400 or 500, never 200 and never 404, and the tables stay as they
    are. *)
Theorem update_never_succeeds req w :
  update_item req w = (Ok (mk_resp 500 (Message "Database error")), w)
  /\ PUT_id req w
     = (Ok (if is_admin req then
              match valid_id req with
              | Some _ => mk_resp 500 (Message "Database error")
              | None => mk_resp 400 (Message "Invalid item ID")
              end
            else mk_resp 403 (Message "Forbidden: Admin privilege required")),
        w).
Proof.
  split; [reflexivity|]. rewrite PUT_id_eval.
  destruct (is_admin req); [|done]. by destruct (valid_id req).
Qed.

(** ** Inventory round trips *)

(** C9, as amended.  For an item id that is a positive integer: after a
    create answered 201, reading that id answers 200 with the row made of
    the created id, name, stock and price (an absent price reads back as
    NULL); after a delete answered 200, reading that id answers 404 "Item
    not found". *)
Theorem inventory_roundtrip_positive_id :
  (forall reqC w rC w1 k reqG t,
      POST_root reqC w = (Ok rC, w1) -> status rC = 201 ->
      as_int (field reqC "id") = Some k ->
      parseInt (params_id reqG) = Some k -> 0 < k ->
      exists n s p w2,
        as_str (field reqC "name") = Some n
        /\ as_int (field reqC "stock") = Some s
        /\ as_nullable_int (field reqC "price") = Some p
        /\ GET_id reqG (arrive (mk_call reqG [] t) w1)
           = (Ok (mk_resp 200 (Row (mk_row k n s p))), w2))
  /\ (forall reqD w rD w1 reqG t,
         DELETE_id reqD w = (Ok rD, w1) -> status rD = 200 ->
         parseInt (params_id reqG) = parseInt (params_id reqD) ->
         exists w2,
           GET_id reqG (arrive (mk_call reqG [] t) w1)
           = (Ok (mk_resp 404 (Message "Item not found")), w2)).
Proof.
  split.
  - intros reqC w rC w1 k reqG t Hc H201 Hid Hp Hk.
    rewrite POST_root_eval in Hc.
    destruct (is_admin reqC); [|by inversion Hc; subst].
    destruct (negb (truthy (field reqC "id"))
              || negb (truthy (field reqC "name"))
              || is_undefined (field reqC "stock")) eqn:Hv.
    { rewrite (create_item_missing _ _ Hv) in Hc. by inversion Hc; subst. }
    destruct (create_item_not_missing reqC w Hv)
      as (r & w' & E & _ & Hcreated).
    rewrite E in Hc. inversion Hc; subst r w'. clear Hc.
    destruct (Hcreated H201) as (k' & n & s & p & Hk' & Hn & Hs & Hp' & _ & Hdb).
    assert (k' = k) as -> by congruence.
    rewrite GET_id_eval, (valid_id_parse _ _ Hp Hk).
    destruct (get_item_found (with_itemId k reqG)
                (arrive (mk_call reqG [] t) w1) k (mk_item n s p))
      as (w2 & -> & _); [done|done| |by eexists n, s, p, w2].
    simpl. rewrite Hdb. simpl. apply lookup_insert_eq.
  - intros reqD w rD w1 reqG t Hd H200 Hp.
    rewrite DELETE_id_eval in Hd.
    destruct (is_admin reqD); [|by inversion Hd; subst].
    destruct (valid_id reqD) as [k|] eqn:Hv; [|by inversion Hd; subst].
    assert (valid_id reqG = Some k) as Hg.
    { unfold valid_id in *. by rewrite Hp. }
    rewrite GET_id_eval, Hg.
    destruct (get_item_not_found (with_itemId k reqG)
                (arrive (mk_call reqG [] t) w1) k)
      as (w2 & -> & _); [done|done| |by eexists].
    simpl. by eapply (delete_item_handler_deleted (with_itemId k reqD)).
Qed.

(** C10.  The create handler answers 400 "Missing fields" exactly when the
    id is falsy, the name is falsy, or the stock is [undefined], and then
    sends nothing; 0, the empty string and an absent field are such falsy
    values.  A stock of 0 passes: with a fresh non-zero id and a non-empty
    name the item is created with stock 0.  The price plays no part in the
    check, and an item without a price is created with a NULL price. *)
Theorem create_validation_asymmetric :
  (forall req w,
      is_admin req = true ->
      fst (POST_root req w) = Ok (mk_resp 400 (Message "Missing fields"))
      <-> truthy (field req "id") = false
          \/ truthy (field req "name") = false
          \/ field req "stock" = JUndefined)
  /\ (forall req w v,
         is_admin req = true ->
         v = JNum 0 \/ v = JStr "" \/ v = JUndefined ->
         field req "id" = v \/ field req "name" = v ->
         POST_root req w = (Ok (mk_resp 400 (Message "Missing fields")), w))
  /\ (forall req w k n p,
         is_admin req = true ->
         field req "id" = JNum k -> k <> 0 ->
         field req "name" = JStr n -> n <> "" ->
         field req "stock" = JNum 0 ->
         as_nullable_int (field req "price") = Some p ->
         faults w = [] -> inventory (db w) !! k = None ->
         exists w',
           POST_root req w
           = (Ok (mk_resp 201 (Created (JNum k) (JStr n) (JNum 0)
                                 (field req "price")
                                 "Item added successfully")), w')
           /\ inventory (db w') !! k = Some (mk_item n 0 p))
  /\ (forall req w k n s,
         is_admin req = true ->
         field req "id" = JNum k -> k <> 0 ->
         field req "name" = JStr n -> n <> "" ->
         field req "stock" = JNum s ->
         field req "price" = JUndefined ->
         faults w = [] -> inventory (db w) !! k = None ->
         exists w',
           POST_root req w
           = (Ok (mk_resp 201 (Created (JNum k) (JStr n) (JNum s) JUndefined
                                 "Item added successfully")), w')
           /\ inventory (db w') !! k = Some (mk_item n s None)).
Proof.
  split; [|split; [|split]].
  - intros req w Ha. rewrite POST_root_eval, Ha.
    destruct (negb (truthy (field req "id"))
              || negb (truthy (field req "name"))
              || is_undefined (field req "stock")) eqn:Hv.
    + rewrite (create_item_missing _ _ Hv). split; [intros _|done].
      destruct (truthy (field req "id")); [|by left].
      destruct (truthy (field req "name")); [|by right; left].
      right; right. by destruct (field req "stock").
    + destruct (create_item_not_missing req w Hv) as (r & w' & -> & Hr & _).
      split; [by intros [= ->]|]. intros H. exfalso.
      destruct (truthy (field req "id")); [|done].
      destruct (truthy (field req "name")); [|done].
      destruct H as [?|[?|H]]; [done|done|]. by rewrite H in Hv.
  - intros req w v Ha Hv Hf. rewrite POST_root_eval, Ha.
    apply create_item_missing.
    destruct Hf as [-> | ->].
    + by destruct Hv as [->|[->| ->]].
    + destruct (truthy (field req "id")); [|done].
      by destruct Hv as [->|[->| ->]].
  - intros req w k n p Ha Hid Hk Hn Hne Hs Hp Hf Hi.
    rewrite POST_root_eval, Ha.
    destruct (create_item_created req w k n 0 p) as (w' & -> & Hdb); try done.
    eexists. split; [reflexivity|]. rewrite Hdb. simpl. apply lookup_insert_eq.
  - intros req w k n s Ha Hid Hk Hn Hne Hs Hp Hf Hi.
    rewrite POST_root_eval, Ha.
    destruct (create_item_created req w k n s None) as (w' & E & Hdb);
      try done; [by rewrite Hp|].
    rewrite E, Hp. eexists. split; [reflexivity|]. rewrite Hdb. simpl.
    apply lookup_insert_eq.
Qed.

(** ** The token lifecycle *)

Section TokenLifecycle.

Context {env : Environment}.

(** C5.  For a refresh token that verifies, with no storage failure:
    refresh answers 403 "Invalid refresh token" when no stored row
    matches the user id and the token; 404 "User not found" when a row
    matches and the user is gone; and otherwise 200 with a new access
    token and nothing else.  The tables, the stored refresh token among
    them, are the same afterwards in every case.  After a logout with
    that token no row matches, and refresh answers 403. *)
Theorem refresh_outcomes req w tok p :
  field req "token" = JStr tok -> tok <> "" ->
  jwt_verify tok REFRESH_TOKEN (now w) = Some p ->
  faults w = [] ->
  (exists r w',
      App.refresh req w = (Ok r, w')
      /\ db w' = db w
      /\ (select_refresh_token (pl_id p) (JStr tok) (db w) = [] ->
          r = mk_resp 403 (Message "Invalid refresh token"))
      /\ (select_refresh_token (pl_id p) (JStr tok) (db w) <> [] ->
          select_user_by_id (pl_id p) (db w) = [] ->
          r = mk_resp 404 (Message "User not found"))
      /\ (forall u rest,
            select_refresh_token (pl_id p) (JStr tok) (db w) <> [] ->
            select_user_by_id (pl_id p) (db w) = u :: rest ->
            r = mk_resp 200
                  (Access (jwt_sign (mk_payload (u_id u) (Some (u_role u)))
                             ACCESS_TOKEN 3600 (now w)))))
  /\ (forall reqO c,
        field reqO "token" = JStr tok ->
        let w1 := snd (App.logout reqO w) in
        select_refresh_token (pl_id p) (JStr tok) (db w1) = []
        /\ exists w2,
             App.refresh req (arrive c w1)
             = (Ok (mk_resp 403 (Message "Invalid refresh token")), w2)
             /\ db w2 = db w1).
Proof.
  intros Ht Hne Hv Hf. split.
  - destruct (refresh_eval req w tok p Ht Hne Hv Hf) as (w' & E & Hdb).
    eexists _, w'. split; [exact E|]. split; [done|].
    destruct (select_refresh_token (pl_id p) (JStr tok) (db w)) as [|x l].
    { repeat split; intros; done. }
    split; [done|].
    destruct (select_user_by_id (pl_id p) (db w)) as [|u l'].
    { repeat split; intros; done. }
    split; [done|]. by intros u' rest _ [= <- <-].
  - intros reqO c HtO w1.
    assert (Htr : truthy (field reqO "token") = true).
    { rewrite HtO. simpl. destruct (String.eqb tok "") eqn:E; [|done].
      by apply String.eqb_eq in E. }
    assert (Hfn : fails_next w = false) by (unfold fails_next; by rewrite Hf).
    assert (Hdb1 : db w1 = delete_refresh_token (JStr tok) (db w)).
    { unfold w1. rewrite (logout_eval _ _ Htr Hfn). simpl. by rewrite HtO. }
    split.
    { rewrite Hdb1. apply select_refresh_token_gone. }
    destruct (refresh_revoked req (arrive c w1) (JStr tok)) as (w2 & E & H2).
    + done.
    + change (db (arrive c w1)) with (db w1). rewrite Hdb1.
      apply delete_refresh_token_gone.
    + by rewrite <- HtO.
    + by exists w2.
Qed.

(** C6.  The token check of [verifyToken] is a function of the request
    and the clock: two worlds with the same clock give the same outcome
    whatever their tables hold, and the check changes nothing.  So an
    access token issued by a login, presented while it still verifies,
    is let through after a logout has deleted the rows of the refresh
    token of that login. *)
Theorem verifyToken_stateless :
  (forall req w1 w2,
      now w1 = now w2 ->
      fst (App.verifyToken req w1) = fst (App.verifyToken req w2))
  /\ (forall req w, snd (App.verifyToken req w) = w)
  /\ (forall reqL w a r role w1 reqO cO req c auth p,
         App.login reqL w = (Ok (mk_resp 200 (Session a r role)), w1) ->
         field reqO "token" = JStr r -> r <> "" ->
         call_faults cO = [] ->
         authorization req = Some auth -> App.bearer auth = JStr a ->
         jwt_verify a ACCESS_TOKEN (call_now c) = Some p ->
         let w2 := snd (App.logout reqO (arrive cO w1)) in
         (forall uid, select_refresh_token uid (JStr r) (db w2) = [])
         /\ App.verifyToken req (arrive c w2)
            = (Ok (Next (with_user p req)), arrive c w2)).
Proof.
  split; [|split].
  - intros req w1 w2 Hn. rewrite !verifyToken_eval. simpl. by rewrite Hn.
  - intros req w. by rewrite verifyToken_eval.
  - intros reqL w a r role w1 reqO cO req c auth p _ HtO Hne HfO Ha Hb Hv w2.
    split.
    + intros uid. unfold w2.
      rewrite logout_eval; simpl.
      * rewrite HtO. apply select_refresh_token_gone.
      * rewrite HtO. simpl. destruct (String.eqb r "") eqn:E; [|done].
        by apply String.eqb_eq in E.
      * unfold fails_next. simpl. by rewrite HfO.
    + rewrite verifyToken_eval. unfold token_check. rewrite Ha.
      destruct (String.eqb auth "") eqn:E.
      { apply String.eqb_eq in E. by apply bearer_nonempty in Hb. }
      rewrite Hb. simpl. by rewrite Hv.
Qed.

(** C7.  Two logins whose credential check fails, one for a username that
    matches no user and one for an existing user whose password is not
    the right one.  The first is answered 401 "Invalid username or
    password".  The second gets the very same answer when
    [bcrypt.compare] resolves to false; but when [bcrypt.compare] rejects
    the password it is handed (a number, say, where a string is needed),
    the exception lands in the [catch] block and the answer is 500
    "Database error", so that the caller can tell an existing username
    from an unknown one.  Neither login changes the tables. *)
Theorem login_failure_answers req1 w1 req2 w2 u rest :
  truthy (field req1 "username") = true ->
  truthy (field req1 "password") = true ->
  truthy (field req2 "username") = true ->
  truthy (field req2 "password") = true ->
  fails_next w1 = false -> fails_next w2 = false ->
  select_user_by_name (field req1 "username") (db w1) = [] ->
  select_user_by_name (field req2 "username") (db w2) = u :: rest ->
  bcrypt_compare (field req2 "password") (u_password u) <> Some true ->
  fst (App.login req1 w1)
  = Ok (mk_resp 401 (Message "Invalid username or password"))
  /\ fst (App.login req2 w2)
     = match bcrypt_compare (field req2 "password") (u_password u) with
       | Some _ => Ok (mk_resp 401 (Message "Invalid username or password"))
       | None => Ok (mk_resp 500 (Message "Database error"))
       end
  /\ (bcrypt_compare (field req2 "password") (u_password u) = None <->
      fst (App.login req2 w2) <> fst (App.login req1 w1))
  /\ db (snd (App.login req1 w1)) = db w1
  /\ db (snd (App.login req2 w2)) = db w2.
Proof.
  intros Hu1 Hp1 Hu2 Hp2 Hf1 Hf2 Hs1 Hs2 Hc.
  rewrite (login_unknown_user _ _ Hu1 Hp1 Hf1 Hs1).
  destruct (bcrypt_compare (field req2 "password") (u_password u))
    as [[]|] eqn:E; [done| |].
  - rewrite (login_wrong_password _ _ _ _ Hu2 Hp2 Hf2 Hs2 E). simpl.
    repeat split; try done.
  - rewrite (login_compare_rejects _ _ _ _ Hu2 Hp2 Hf2 Hs2 E). simpl.
    repeat split; try done.
Qed.

(** C8.  With no storage failure, logout with a token answers 200
    "Logged out successfully" and leaves the tables with every row of
    that token deleted and nothing else changed; when no row holds the
    token the tables are unchanged and the answer is the same; and a
    second logout with the same token gives the same answer and the same
    tables as the first. *)
Theorem logout_idempotent req w :
  truthy (field req "token") = true -> faults w = [] ->
  exists w1 w2,
    App.logout req w
    = (Ok (mk_resp 200 (Message "Logged out successfully")), w1)
    /\ db w1 = set_refresh_tokens
                 (filter (fun t =>
                            str_matches (field req "token") (t_token t)
                            <> true))
                 (db w)
    /\ Forall (fun t => str_matches (field req "token") (t_token t) = false)
         (refresh_tokens (db w1))
    /\ (Forall (fun t => str_matches (field req "token") (t_token t) = false)
          (refresh_tokens (db w)) -> db w1 = db w)
    /\ App.logout req w1
       = (Ok (mk_resp 200 (Message "Logged out successfully")), w2)
    /\ db w2 = db w1.
Proof.
  intros Ht Hf.
  assert (Hfn : fails_next w = false) by (unfold fails_next; by rewrite Hf).
  rewrite (logout_eval _ _ Ht Hfn). eexists _, _.
  split; [reflexivity|]. simpl.
  split; [done|].
  split; [apply delete_refresh_token_gone|].
  split; [apply delete_refresh_token_absent|].
  rewrite logout_eval; [|done|unfold fails_next; simpl; by rewrite Hf].
  split; [reflexivity|]. simpl. apply delete_refresh_token_idem.
Qed.

End TokenLifecycle.

(** * The handlers at work *)

Example parseInt_prefix : parseInt " 12abc" = Some 12.
Proof. reflexivity. Qed.

Example parseInt_negative : parseInt "-5" = Some (-5).
Proof. reflexivity. Qed.

Example parseInt_nan : parseInt "abc" = None.
Proof. reflexivity. Qed.

Example parseInt_hex : parseInt "0x1f" = Some 31.
Proof. reflexivity. Qed.

(** Beyond 2^53 a double holds every second integer only. *)
Example parseInt_beyond_2_53 :
  parseInt "9007199254740993" = Some 9007199254740992
  /\ parseInt "9007199254740995" = Some 9007199254740996
  /\ parseInt "-9007199254740993" = Some (-9007199254740992)
  /\ parseInt "9007199254740991" = Some 9007199254740991.
Proof. by vm_compute. Qed.

Example split_bearer : split "Bearer abc" " " = ["Bearer"; "abc"].
Proof. reflexivity. Qed.

Example split_two_spaces : split "Bearer  abc" " " = ["Bearer"; ""; "abc"].
Proof. reflexivity. Qed.

Example toy_tokens :
  Toy.access_token = "access-secret.user.1.3600"
  /\ Toy.refresh_token = "refresh-secret..1.604800".
Proof. by vm_compute. Qed.

Example toy_login :
  App.login (env := Toy.env) (Toy.credentials "alice" "pw1") (idle Toy.shop 0)
  = (Ok (mk_resp 200 (Session Toy.access_token Toy.refresh_token "user")),
     Toy.logged_in).
Proof. by vm_compute. Qed.

(** A wrong password for alice and any password for bob, who is not a
    user, get the same answer; a password that is no string gets 500 for
    alice and 401 for bob. *)
Example toy_login_failures :
  fst (App.login (env := Toy.env) (Toy.credentials "alice" "guess")
         (idle Toy.shop 0))
  = Ok (mk_resp 401 (Message "Invalid username or password"))
  /\ fst (App.login (env := Toy.env) (Toy.credentials "bob" "guess")
            (idle Toy.shop 0))
     = Ok (mk_resp 401 (Message "Invalid username or password"))
  /\ fst (App.login (env := Toy.env)
            (Toy.post [("username", JStr "alice"); ("password", JNum 123)])
            (idle Toy.shop 0))
     = Ok (mk_resp 500 (Message "Database error"))
  /\ fst (App.login (env := Toy.env)
            (Toy.post [("username", JStr "bob"); ("password", JNum 123)])
            (idle Toy.shop 0))
     = Ok (mk_resp 401 (Message "Invalid username or password")).
Proof. by vm_compute. Qed.

(** The INSERT fails after the decrement went through: 500, and the three
    pens are still there. *)
Example rush_first_call :
  POST_purchase_id (Toy.buy "1" 2)
    (mk_world Toy.shop None [false; false; false; true] [] 10)
  = (Ok (mk_resp 500 (Message "Transaction failed")),
     mk_world Toy.shop None []
       [Begin; UpdateStockIf (JNum 2) (JNum 1);
        InsertPurchase (JNum 1) (JNum 2) (Some 1); Rollback] 10).
Proof. by vm_compute. Qed.

(** No connection to be had: the exception leaves the handler, nothing is
    sent to the storage and nothing is answered. *)
Example purchase_without_connection :
  POST_purchase_id (Toy.buy "1" 2) (mk_world Toy.shop None [true] [] 10)
  = (Throw StorageError, mk_world Toy.shop None [] [] 10).
Proof. by vm_compute. Qed.

(** The INSERT fails and the ROLLBACK of the [catch] block rejects too:
    no answer, and the three pens are still there. *)
Example purchase_rollback_rejects :
  POST_purchase_id (Toy.buy "1" 2)
    (mk_world Toy.shop None [false; false; false; true; true] [] 10)
  = (Throw StorageError,
     mk_world Toy.shop None []
       [Begin; UpdateStockIf (JNum 2) (JNum 1);
        InsertPurchase (JNum 1) (JNum 2) (Some 1); Rollback] 10).
Proof. by vm_compute. Qed.

Example rush_result :
  inventory (db (serve POST_purchase_id Toy.rush (idle Toy.shop 0))) !! 1
  = Some (mk_item "pen" 1 (Some 120))
  /\ purchases (db (serve POST_purchase_id Toy.rush (idle Toy.shop 0)))
     = [mk_purchase 1 2 (Some 1)].
Proof. by vm_compute. Qed.

(** From the header to the tables: alice's access token, one pen. *)
Example purchase_through_verifyToken :
  exists w',
    App.inventory_route (env := Toy.env) POST_purchase_id
      (Toy.authorized Toy.access_token "1" [("quantity", JNum 1)])
      (idle Toy.shop 1000)
    = (Ok (mk_resp 200 (Purchased (JNum 1) (JNum 1))), w')
    /\ inventory (db w') !! 1 = Some (mk_item "pen" 2 (Some 120))
    /\ purchases (db w') = [mk_purchase 1 1 (Some 1)].
Proof. eexists. by vm_compute. Qed.

(** The same token an hour later. *)
Example purchase_with_expired_token :
  App.inventory_route (env := Toy.env) POST_purchase_id
    (Toy.authorized Toy.access_token "1" [("quantity", JNum 1)])
    (idle Toy.shop 3600000)
  = (Ok (mk_resp 403 (Message "Invalid token")), idle Toy.shop 3600000).
Proof. by vm_compute. Qed.

Example purchase_too_many :
  fst (POST_purchase_id (Toy.buy "1" 4) (idle Toy.shop 0))
  = Ok (mk_resp 400 (Message "Insufficient stock")).
Proof. by vm_compute. Qed.

Example purchase_unknown_item :
  fst (POST_purchase_id (Toy.buy "3" 1) (idle Toy.shop 0))
  = Ok (mk_resp 404 (Message "Item not found")).
Proof. by vm_compute. Qed.

Example purchase_without_quantity :
  POST_purchase_id (Toy.request_of Toy.as_user "1" []) (idle Toy.shop 0)
  = (Ok (mk_resp 400 (Message "Invalid quantity")), idle Toy.shop 0).
Proof. by vm_compute. Qed.

Example purchase_as_admin :
  POST_purchase_id (Toy.request_of Toy.as_admin "1" [("quantity", JNum 1)])
    (idle Toy.shop 0)
  = (Ok (mk_resp 403 (Message "Forbidden: Admins cannot make purchases")),
     idle Toy.shop 0).
Proof. by vm_compute. Qed.

Example create_duplicate :
  fst (POST_root (Toy.new_item 1 "pen" 5) (idle Toy.shop 0))
  = Ok (mk_resp 400 (Message "ID already exists")).
Proof. by vm_compute. Qed.

Example refresh_after_logout :
  let token := Toy.post [("token", JStr Toy.refresh_token)] in
  fst (App.refresh (env := Toy.env) token
         (snd (App.logout token Toy.logged_in)))
  = Ok (mk_resp 403 (Message "Invalid refresh token")).
Proof. by vm_compute. Qed.

(** An admin updates item 1, which exists: 500, nothing changed. *)
Example update_existing_item :
  PUT_id (Toy.request_of Toy.as_admin "1"
            [("name", JStr "pencil"); ("stock", JNum 7); ("price", JNum 90)])
    (idle Toy.shop 0)
  = (Ok (mk_resp 500 (Message "Database error")), idle Toy.shop 0).
Proof. by vm_compute. Qed.

(** * The theorems at concrete inputs *)

Lemma shop_stock_nonneg : stock_nonneg Toy.shop.
Proof.
  unfold stock_nonneg, Toy.shop. simpl.
  apply map_Forall_insert_2; [simpl; lia|].
  apply map_Forall_insert_2; [simpl; lia|]. apply map_Forall_empty.
Defined.

Lemma purchase_stock_never_negative_witness :
  (exists n d',
      update_stock_if (JNum 2) (JNum 1) Toy.shop = inr (n, d')
      /\ (n = 1 <-> 2 <= 3))
  /\ (exists w',
        POST_purchase_id (Toy.buy "1" 2) (idle Toy.shop 0)
        = (Ok (mk_resp 200 (Purchased (JNum 2) (JNum 1))), w')
        /\ inventory (db w') !! 1 = Some (mk_item "pen" 1 (Some 120))
        /\ trace w' = [Begin; UpdateStockIf (JNum 2) (JNum 1);
                       InsertPurchase (JNum 1) (JNum 2) (Some 1); Commit])
  /\ (exists w',
        POST_purchase_id (Toy.buy "1" 5) (idle Toy.shop 0)
        = (Ok (mk_resp 400 (Message "Insufficient stock")), w')
        /\ inventory (db w') = inventory Toy.shop
        /\ trace w' = [Begin; UpdateStockIf (JNum 5) (JNum 1); Rollback;
                       SelectStock (JNum 1)])
  /\ stock_nonneg (db (serve POST_purchase_id Toy.rush (idle Toy.shop 0))).
Proof.
  split; [|split; [|split]].
  - destruct (proj1 purchase_stock_never_negative Toy.shop 1 2
                (mk_item "pen" 3 (Some 120)) eq_refl)
      as (n & d' & E & Hn & _).
    by exists n, d'.
  - destruct (proj1 (proj2 (proj2 (proj2 (proj2
                                            purchase_stock_never_negative))))
                (Toy.buy "1" 2) (idle Toy.shop 0) Toy.as_user 1 2
                (mk_item "pen" 3 (Some 120)))
      as (r & w' & E & _ & H & _);
      [reflexivity|discriminate|reflexivity|lia|reflexivity|lia|reflexivity
      |reflexivity|].
    destruct H as (-> & Hi & Ht); [simpl; lia|].
    exists w'. split; [done|]. split; [|done].
    rewrite Hi. by rewrite lookup_insert_eq.
  - destruct (proj1 (proj2 (proj2 (proj2 (proj2
                                            purchase_stock_never_negative))))
                (Toy.buy "1" 5) (idle Toy.shop 0) Toy.as_user 1 5
                (mk_item "pen" 3 (Some 120)))
      as (r & w' & E & _ & _ & H);
      [reflexivity|discriminate|reflexivity|lia|reflexivity|lia|reflexivity
      |reflexivity|].
    destruct H as (-> & Hi & Ht); [simpl; lia|].
    by exists w'.
  - apply (proj2 (proj2 (proj2 (proj2 (proj2 (proj2
                                              purchase_stock_never_negative)))))).
    + reflexivity.
    + exact shop_stock_nonneg.
Defined.

Lemma purchase_all_or_nothing_witness :
  exists w',
    POST_purchase_id (Toy.buy "1" 2)
      (mk_world Toy.shop None [false; false; false; true] [] 10)
    = (Ok (mk_resp 500 (Message "Transaction failed")), w')
    /\ txn w' = None
    /\ db w' = Toy.shop
    /\ trace w' = [Begin; UpdateStockIf (JNum 2) (JNum 1);
                   InsertPurchase (JNum 1) (JNum 2) (Some 1); Rollback].
Proof.
  destruct (purchase_all_or_nothing (Toy.buy "1" 2)
              (mk_world Toy.shop None [false; false; false; true] [] 10)
              eq_refl)
    as (o & w' & E & Ht & _ & H).
  destruct (H Toy.as_user 1 2 (mk_item "pen" 3 (Some 120)))
    as [Hi _];
    [reflexivity|discriminate|reflexivity|lia|reflexivity|lia|reflexivity
    |simpl; lia|].
  destruct (Hi [] eq_refl) as (-> & Hd & Htr).
  by exists w'.
Defined.

Lemma purchase_outcomes_witness :
  exists r w',
    POST_purchase_id (Toy.buy "1" 2) (idle Toy.shop 0) = (Ok r, w')
    /\ (forall it,
          0 < 2 -> inventory Toy.shop !! 1 = Some it -> 2 <= stock it ->
          r = mk_resp 200 (Purchased (JNum 2) (JNum 1))
          /\ db w' = mk_db (users Toy.shop) (refresh_tokens Toy.shop)
                       (<[1 := mk_item (item_name it) (stock it - 2)
                                  (price it)]> (inventory Toy.shop))
                       (purchases Toy.shop ++ [mk_purchase 1 2 (Some 1)])).
Proof.
  destruct (purchase_outcomes (Toy.buy "1" 2) (idle Toy.shop 0) Toy.as_user 1 2)
    as (r & w' & E & _ & _ & _ & H).
  - reflexivity.
  - discriminate.
  - reflexivity.
  - lia.
  - reflexivity.
  - reflexivity.
  - by exists r, w'.
Defined.

(** Counterexample to the round trip of C9 as stated for every id: an
    item created with the id -5 cannot be read back; the create answers
    201 and the read of that id answers 400 "Invalid item ID". *)
Lemma create_then_get_nonpositive_id :
  let create := Toy.new_item (-5) "chalk" 4 in
  let read := Toy.request_of Toy.as_admin "-5" [] in
  exists w1,
    POST_root create (idle Toy.shop 0)
    = (Ok (mk_resp 201 (Created (JNum (-5)) (JStr "chalk") (JNum 4) JUndefined
                          "Item added successfully")), w1)
    /\ inventory (db w1) !! (-5) = Some (mk_item "chalk" 4 None)
    /\ parseInt (params_id read) = Some (-5)
    /\ GET_id read (arrive (mk_call read [] 1) w1)
       = (Ok (mk_resp 400 (Message "Invalid item ID")),
          arrive (mk_call read [] 1) w1).
Proof. eexists. by vm_compute. Qed.

Lemma inventory_roundtrip_positive_id_witness :
  (exists n s p w2,
      GET_id (Toy.request_of Toy.as_user "7" [])
        (arrive (mk_call (Toy.request_of Toy.as_user "7" []) [] 1)
           (snd (POST_root (Toy.new_item 7 "chalk" 4) (idle Toy.shop 0))))
      = (Ok (mk_resp 200 (Row (mk_row 7 n s p))), w2))
  /\ (exists w2,
         GET_id (Toy.request_of Toy.as_user "1" [])
           (arrive (mk_call (Toy.request_of Toy.as_user "1" []) [] 1)
              (snd (DELETE_id (Toy.request_of Toy.as_admin "1" [])
                      (idle Toy.shop 0))))
         = (Ok (mk_resp 404 (Message "Item not found")), w2)).
Proof.
  split.
  - destruct (proj1 inventory_roundtrip_positive_id
                (Toy.new_item 7 "chalk" 4) (idle Toy.shop 0)
                (mk_resp 201 (Created (JNum 7) (JStr "chalk") (JNum 4)
                                JUndefined "Item added successfully"))
                (snd (POST_root (Toy.new_item 7 "chalk" 4) (idle Toy.shop 0)))
                7 (Toy.request_of Toy.as_user "7" []) 1)
      as (n & s & p & w2 & _ & _ & _ & E).
    + by vm_compute.
    + reflexivity.
    + reflexivity.
    + reflexivity.
    + lia.
    + by exists n, s, p, w2.
  - apply (proj2 inventory_roundtrip_positive_id
             (Toy.request_of Toy.as_admin "1" []) (idle Toy.shop 0)
             (mk_resp 200 (Deleted "Item deleted successfully"
                             (mk_row 1 "pen" 3 (Some 120))))).
    + by vm_compute.
    + reflexivity.
    + reflexivity.
Defined.

Lemma create_validation_asymmetric_witness :
  (exists w',
      POST_root (Toy.new_item 9 "nib" 0) (idle Toy.shop 0)
      = (Ok (mk_resp 201 (Created (JNum 9) (JStr "nib") (JNum 0) JUndefined
                            "Item added successfully")), w')
      /\ inventory (db w') !! 9 = Some (mk_item "nib" 0 None))
  /\ POST_root (Toy.new_item 0 "nib" 5) (idle Toy.shop 0)
     = (Ok (mk_resp 400 (Message "Missing fields")), idle Toy.shop 0)
  /\ POST_root (Toy.new_item 9 "" 5) (idle Toy.shop 0)
     = (Ok (mk_resp 400 (Message "Missing fields")), idle Toy.shop 0).
Proof.
  destruct create_validation_asymmetric as (_ & Hfalsy & Hzero & _).
  split; [|split].
  - apply (Hzero (Toy.new_item 9 "nib" 0) (idle Toy.shop 0) 9 "nib" None);
      try reflexivity; discriminate.
  - apply (Hfalsy _ _ (JNum 0)); [reflexivity|by left|by left].
  - apply (Hfalsy _ _ (JStr "")); [reflexivity|by right; left|by right].
Defined.

Lemma refresh_outcomes_witness :
  exists r w',
    App.refresh (env := Toy.env) (Toy.post [("token", JStr Toy.refresh_token)])
      Toy.logged_in = (Ok r, w')
    /\ db w' = db Toy.logged_in
    /\ r = mk_resp 200 (Access Toy.access_token).
Proof.
  destruct (refresh_outcomes (env := Toy.env)
              (Toy.post [("token", JStr Toy.refresh_token)]) Toy.logged_in
              Toy.refresh_token (mk_payload 1 None))
    as ((r & w' & E & Hdb & _ & _ & H200) & _).
  - reflexivity.
  - discriminate.
  - reflexivity.
  - reflexivity.
  - exists r, w'. split; [exact E|]. split; [exact Hdb|].
    apply (H200 Toy.alice []); [discriminate|reflexivity].
Defined.

Lemma verifyToken_stateless_witness :
  let w2 := snd (App.logout
                   (Toy.post [("token", JStr Toy.refresh_token)])
                   (arrive (mk_call (Toy.post []) [] 60000) Toy.logged_in)) in
  let c := mk_call (Toy.bearing Toy.access_token) [] 120000 in
  (forall uid, select_refresh_token uid (JStr Toy.refresh_token) (db w2) = [])
  /\ App.verifyToken (env := Toy.env) (Toy.bearing Toy.access_token)
       (arrive c w2)
     = (Ok (Next (with_user Toy.as_user (Toy.bearing Toy.access_token))),
        arrive c w2).
Proof.
  apply (proj2 (proj2 (verifyToken_stateless (env := Toy.env)))
           (Toy.credentials "alice" "pw1") (idle Toy.shop 0)
           Toy.access_token Toy.refresh_token "user" Toy.logged_in
           (Toy.post [("token", JStr Toy.refresh_token)])
           (mk_call (Toy.post []) [] 60000)
           (Toy.bearing Toy.access_token)
           (mk_call (Toy.bearing Toy.access_token) [] 120000)
           ("Bearer " +:+ Toy.access_token) Toy.as_user).
  - by vm_compute.
  - reflexivity.
  - discriminate.
  - reflexivity.
  - reflexivity.
  - reflexivity.
  - reflexivity.
Defined.

Lemma login_failure_answers_witness :
  fst (App.login (env := Toy.env)
         (Toy.post [("username", JStr "bob"); ("password", JNum 123)])
         (idle Toy.shop 0))
  = Ok (mk_resp 401 (Message "Invalid username or password"))
  /\ fst (App.login (env := Toy.env)
            (Toy.post [("username", JStr "alice"); ("password", JNum 123)])
            (idle Toy.shop 0))
     = Ok (mk_resp 500 (Message "Database error")).
Proof.
  destruct (login_failure_answers (env := Toy.env)
              (Toy.post [("username", JStr "bob"); ("password", JNum 123)])
              (idle Toy.shop 0)
              (Toy.post [("username", JStr "alice"); ("password", JNum 123)])
              (idle Toy.shop 0)
              Toy.alice [])
    as (H1 & H2 & _); try reflexivity; [discriminate|].
  by split.
Defined.

Lemma logout_idempotent_witness :
  exists w1 w2,
    App.logout (Toy.post [("token", JStr Toy.refresh_token)])
      Toy.logged_in
    = (Ok (mk_resp 200 (Message "Logged out successfully")), w1)
    /\ App.logout
         (Toy.post [("token", JStr Toy.refresh_token)]) w1
       = (Ok (mk_resp 200 (Message "Logged out successfully")), w2)
    /\ db w2 = db w1.
Proof.
  destruct (logout_idempotent
              (Toy.post [("token", JStr Toy.refresh_token)]) Toy.logged_in)
    as (w1 & w2 & E1 & _ & _ & _ & E2 & Hdb); try reflexivity.
  by exists w1, w2.
Defined.

(** * More properties of the routes *)

(** ** Purchases account for every unit *)

Lemma sold_app k l r :
  sold k (l ++ [r])
  = sold k l + (if p_item_id r =? k then p_quantity r else 0).
Proof.
  induction l as [|x l IH]; simpl.
  - destruct (p_item_id r =? k); lia.
  - rewrite IH. destruct (p_item_id x =? k); lia.
Qed.

(** The books balance over one purchase request. *)
Lemma route_purchase_conserves req w k :
  txn w = None ->
  let w' := snd (POST_purchase_id req w) in
  txn w' = None
  /\ on_hand k (db w') + sold k (purchases (db w'))
     = on_hand k (db w) + sold k (purchases (db w))
  /\ item_name <$> inventory (db w') !! k = item_name <$> inventory (db w) !! k
  /\ price <$> inventory (db w') !! k = price <$> inventory (db w) !! k
  /\ users (db w') = users (db w)
  /\ refresh_tokens (db w') = refresh_tokens (db w)
  /\ purchases (db w) `prefix_of` purchases (db w').
Proof.
  intros Ht.
  destruct (POST_purchase_id_cases req w) as [(r & -> & _)|(id & _ & _ & ->)].
  { simpl. by repeat split. }
  destruct (purchase_effect (with_itemId id req) w Ht)
    as (r & w' & -> & Ht' & [[_ E]|(k' & q & it & _ & _ & _ & _ & Hi & _ & E)]);
    simpl; rewrite E.
  { by repeat split. }
  simpl. split; [done|]. unfold on_hand. simpl. rewrite sold_app. simpl.
  destruct (decide (k' = k)) as [->|Hne].
  - rewrite lookup_insert_eq, Hi, Z.eqb_refl. simpl.
    repeat split; try done; try lia. by apply prefix_app_r.
  - rewrite lookup_insert_ne by done.
    destruct (k' =? k) eqn:E'; [lia|].
    repeat split; try done; try lia. by apply prefix_app_r.
Qed.

(** X1.  Over any sequence of purchase requests, with whatever failures,
    the units of an item in stock plus the units its purchase rows record
    stay the same: no decrement is lost and none is applied without its
    row.  The name and the price of the item, the users and the refresh
    tokens are untouched, and purchase rows are only ever appended. *)
Theorem purchases_conserve_stock cs w k :
  txn w = None ->
  let w' := serve POST_purchase_id cs w in
  on_hand k (db w') + sold k (purchases (db w'))
  = on_hand k (db w) + sold k (purchases (db w))
  /\ item_name <$> inventory (db w') !! k = item_name <$> inventory (db w) !! k
  /\ price <$> inventory (db w') !! k = price <$> inventory (db w) !! k
  /\ users (db w') = users (db w)
  /\ refresh_tokens (db w') = refresh_tokens (db w)
  /\ purchases (db w) `prefix_of` purchases (db w').
Proof.
  revert w. induction cs as [|c cs IH]; intros w Ht; simpl.
  { by repeat split. }
  destruct (route_purchase_conserves (call_req c) (arrive c w) k Ht)
    as (Ht1 & H1 & H2 & H3 & H4 & H5 & H6).
  destruct (IH _ Ht1) as (G1 & G2 & G3 & G4 & G5 & G6).
  simpl in *.
  split; [by rewrite G1|]. split; [by rewrite G2|]. split; [by rewrite G3|].
  split; [by rewrite G4|]. split; [by rewrite G5|]. by etrans.
Qed.

(** X2.  The same purchase of [q] units asked [n] times in a row, with no
    storage failure, of an item with [s] units: exactly min(n, s / q) of
    them go through; the stock ends at s - min(n, s / q) * q and that many
    purchase rows are appended. *)
Theorem repeated_purchase_sells_what_is_there req u k q n t :
  user req = Some u -> pl_role u <> Some "admin" ->
  parseInt (params_id req) = Some k -> 0 < k ->
  field req "quantity" = JNum q -> 0 < q ->
  forall w it,
    inventory (db w) !! k = Some it -> 0 <= stock it ->
    let w' := serve POST_purchase_id (replicate n (mk_call req [] t)) w in
    let m := Z.min (Z.of_nat n) (stock it / q) in
    inventory (db w') !! k
    = Some (mk_item (item_name it) (stock it - m * q) (price it))
    /\ purchases (db w')
       = purchases (db w)
         ++ replicate (Z.to_nat m) (mk_purchase k q (Some (pl_id u))).
Proof.
  intros Hu Hr Hp Hk Hq Hqpos.
  assert (Hq' : field (with_itemId k req) "quantity" = JNum q) by done.
  assert (Hid : itemId (with_itemId k req) = JNum k) by done.
  induction n as [|n IH]; intros w it Hi Hs; simpl.
  { rewrite Z.min_l by (apply Z.div_pos; lia). simpl.
    rewrite Z.sub_0_r, app_nil_r. split; [|done]. rewrite Hi. by destruct it. }
  rewrite (POST_purchase_id_user _ _ _ _ Hu Hr Hp Hk).
  destruct (Z_le_gt_dec q (stock it)) as [Hle|Hgt].
  - destruct (purchase_success (with_itemId k req)
                (arrive (mk_call req [] t) w) q k it)
      as (w1 & -> & _ & Hdb); try done.
    simpl in Hdb. simpl.
    destruct (IH w1 (mk_item (item_name it) (stock it - q) (price it)))
      as [G1 G2].
    { rewrite Hdb. simpl. apply lookup_insert_eq. }
    { simpl. lia. }
    simpl in G1, G2.
    assert (Hdiv : (stock it - q) / q = stock it / q - 1).
    { replace (stock it - q) with (stock it + (-1) * q) by lia.
      rewrite Z.div_add by lia. lia. }
    assert (0 <= (stock it - q) / q) by (apply Z.div_pos; lia).
    assert (Hm : Z.min (Z.of_nat (S n)) (stock it / q)
                 = 1 + Z.min (Z.of_nat n) ((stock it - q) / q)) by lia.
    rewrite Hm, G1, G2, Hdb. simpl. rewrite Hu. simpl.
    split; [f_equal; f_equal; lia|].
    rewrite Z2Nat.inj_add by lia. simpl. by rewrite <- app_assoc.
  - destruct (purchase_insufficient (with_itemId k req)
                (arrive (mk_call req [] t) w) q k it)
      as (w1 & -> & Hdb & _); try done; [lia|].
    simpl in Hdb. simpl.
    destruct (IH w1 it) as [G1 G2]; [by rewrite Hdb|done|].
    simpl in G1, G2.
    assert (Hdiv : stock it / q = 0) by (apply Z.div_small; lia).
    rewrite Hdiv in *.
    rewrite !Z.min_r in * by lia. by rewrite G1, G2, Hdb.
Qed.

(** ** Creating, deleting and reading items *)

Lemma create_item_effect req w :
  exists r w',
    create_item req w = (Ok r, w')
    /\ txn w' = txn w
    /\ (status r <> 201 /\ db w' = db w
        \/ exists k n s p,
             r = mk_resp 201 (Created (field req "id") (field req "name")
                                (field req "stock") (field req "price")
                                "Item added successfully")
             /\ as_int (field req "id") = Some k
             /\ as_str (field req "name") = Some n
             /\ as_int (field req "stock") = Some s
             /\ as_nullable_int (field req "price") = Some p
             /\ inventory (db w) !! k = None
             /\ db w' = set_inventory (insert k (mk_item n s p)) (db w)).
Proof.
  destruct w as [d t fs tr c]. unfold create_item.
  destruct (negb (truthy (field req "id")) || negb (truthy (field req "name"))
            || is_undefined (field req "stock")).
  { eexists _, _. split; [reflexivity|]. split; [done|]. by left. }
  unfold_monad. unfold insert_item. run_handler.
  all: eexists _, _; split; [reflexivity|]; split; [reflexivity|]; simpl.
  all: try (left; by split).
  all: right; by eexists _, _, _, _.
Qed.

(** X3.  The create route never changes or removes an item that exists,
    whatever the request and whatever fails: it leaves every other table
    alone, changes nothing unless it answers 201, and answers 201 only for
    an id that was free.  With admissible fields and no storage failure,
    an id that is taken is answered 400 "ID already exists". *)
Theorem create_never_overwrites req w :
  exists r w',
    POST_root req w = (Ok r, w')
    /\ (forall k it,
          inventory (db w) !! k = Some it -> inventory (db w') !! k = Some it)
    /\ users (db w') = users (db w)
    /\ refresh_tokens (db w') = refresh_tokens (db w)
    /\ purchases (db w') = purchases (db w)
    /\ (status r <> 201 -> db w' = db w)
    /\ (forall k,
          as_int (field req "id") = Some k ->
          is_Some (inventory (db w) !! k) -> status r <> 201)
    /\ (forall k n s p,
          is_admin req = true ->
          field req "id" = JNum k -> k <> 0 ->
          field req "name" = JStr n -> n <> "" ->
          field req "stock" = JNum s ->
          as_nullable_int (field req "price") = Some p ->
          fails_next w = false ->
          is_Some (inventory (db w) !! k) ->
          r = mk_resp 400 (Message "ID already exists")).
Proof.
  rewrite POST_root_eval. destruct (is_admin req) eqn:Ha.
  2:{ eexists _, _. split; [reflexivity|]. by repeat split. }
  destruct (create_item_effect req w)
    as (r & w' & E & _ & [[Hr Hdb]|(k & n & s & p & -> & Hk & Hn & Hs & Hp & Hi & Hdb)]).
  - exists r, w'. split; [done|]. rewrite Hdb.
    repeat split; try done.
    intros k n s p _ Hid Hk Hname Hne Hstock Hp Hf [it Hi].
    revert E. unfold create_item. rewrite Hid, Hname, Hstock. simpl.
    destruct (k =? 0) eqn:E0; [lia|].
    destruct (String.eqb n "") eqn:En; [by apply String.eqb_eq in En|]. simpl.
    unfold_monad. rewrite Hf. unfold insert_item. simpl. rewrite Hp, Hi. simpl.
    by intros [= <- _].
  - eexists _, w'. split; [exact E|]. rewrite Hdb. simpl.
    split.
    { intros j it Hj. rewrite lookup_insert_ne; [done|]. intros ->.
      by rewrite Hi in Hj. }
    repeat split; try done.
    + intros k' Hk' [it Hit]. assert (k' = k) as -> by congruence.
      by rewrite Hi in Hit.
    + intros k' n' s' p' _ Hid _ _ _ _ _ _ [it Hit].
      rewrite Hid in Hk. simpl in Hk. assert (k' = k) as -> by congruence.
      by rewrite Hi in Hit.
Qed.

Lemma delete_item_handler_effect req w k :
  itemId req = JNum k ->
  exists r w',
    delete_item_handler req w = (Ok r, w')
    /\ txn w' = txn w
    /\ (status r <> 200 /\ db w' = db w
        \/ exists it,
             inventory (db w) !! k = Some it
             /\ r = mk_resp 200 (Deleted "Item deleted successfully"
                                   (row_of k it))
             /\ db w' = set_inventory (delete k) (db w)).
Proof.
  destruct w as [d t fs tr c]. intros Hk. unfold delete_item_handler.
  rewrite Hk. unfold_monad. unfold select_item, delete_item. run_handler.
  all: eexists _, _; split; [reflexivity|]; split; [reflexivity|]; simpl.
  all: try (left; by split).
  all: right; by eexists.
Qed.

Lemma delete_found_eval req w k it :
  itemId req = JNum k -> faults w = [] -> inventory (db w) !! k = Some it ->
  exists w',
    delete_item_handler req w
    = (Ok (mk_resp 200 (Deleted "Item deleted successfully" (row_of k it))), w')
    /\ db w' = set_inventory (delete k) (db w) /\ faults w' = [].
Proof.
  destruct w as [d t fs tr c]. simpl. intros Hk -> Hi.
  unfold delete_item_handler. rewrite Hk. unfold_monad.
  unfold select_item, delete_item. simpl. rewrite Hi. simpl. by eexists.
Qed.

Lemma delete_not_found_eval req w k :
  itemId req = JNum k -> faults w = [] -> inventory (db w) !! k = None ->
  exists w',
    delete_item_handler req w
    = (Ok (mk_resp 404 (Message "Item not found")), w')
    /\ db w' = db w /\ faults w' = [].
Proof.
  destruct w as [d t fs tr c]. simpl. intros Hk -> Hi.
  unfold delete_item_handler. rewrite Hk. unfold_monad.
  unfold select_item, delete_item. simpl. rewrite Hi. simpl. by eexists.
Qed.

(** X4.  The delete route answers 200 only for an item that exists; it
    then sends back the row as it was, removes that item and nothing
    else.  Any other answer comes with the tables unchanged, whatever
    failed.  With no storage failure an admin gets 200 for an item that
    exists and 404 "Item not found" for one that does not, so deleting
    the same id a second time is answered 404. *)
Theorem delete_removes_one_item req w :
  exists r w',
    DELETE_id req w = (Ok r, w')
    /\ (status r <> 200 -> db w' = db w)
    /\ (status r = 200 ->
        exists k it,
          valid_id req = Some k
          /\ inventory (db w) !! k = Some it
          /\ r = mk_resp 200 (Deleted "Item deleted successfully" (row_of k it))
          /\ inventory (db w') = delete k (inventory (db w))
          /\ users (db w') = users (db w)
          /\ refresh_tokens (db w') = refresh_tokens (db w)
          /\ purchases (db w') = purchases (db w))
    /\ (forall k,
          is_admin req = true -> valid_id req = Some k -> faults w = [] ->
          (is_Some (inventory (db w) !! k) -> status r = 200)
          /\ (inventory (db w) !! k = None ->
              r = mk_resp 404 (Message "Item not found"))
          /\ fst (DELETE_id req w')
             = Ok (mk_resp 404 (Message "Item not found"))).
Proof.
  rewrite DELETE_id_eval. destruct (is_admin req) eqn:Ha.
  2:{ eexists _, _. split; [reflexivity|]. by repeat split. }
  destruct (valid_id req) as [k|] eqn:Hv.
  2:{ eexists _, _. split; [reflexivity|]. by repeat split. }
  destruct (delete_item_handler_effect (with_itemId k req) w k eq_refl)
    as (r & w' & E & _ & [[Hr Hdb]|(it & Hi & -> & Hdb)]).
  - exists r, w'. split; [done|]. split; [done|]. split; [done|].
    intros k' _ [= <-] Hf.
    assert (Hnone : inventory (db w) !! k = None
                    -> r = mk_resp 404 (Message "Item not found")).
    { intros Hi.
      destruct (delete_not_found_eval (with_itemId k req) w k)
        as (w2 & E2 & _); try done. rewrite E2 in E. by inversion E. }
    assert (Hsome : is_Some (inventory (db w) !! k) -> status r = 200).
    { intros [it Hi].
      destruct (delete_found_eval (with_itemId k req) w k it)
        as (w2 & E2 & _); try done. rewrite E2 in E. by inversion E. }
    split; [done|]. split; [done|].
    destruct (inventory (db w) !! k) as [it|] eqn:Hi.
    { exfalso. apply Hr. apply Hsome. by eexists. }
    assert (Hf' : faults w' = []).
    { destruct (delete_not_found_eval (with_itemId k req) w k)
        as (w2 & E2 & _ & Hf2); try done. rewrite E2 in E.
      by inversion E; subst. }
    rewrite DELETE_id_eval, Ha, Hv.
    destruct (delete_not_found_eval (with_itemId k req) w' k)
      as (w2 & -> & _); try done. by rewrite Hdb.
  - eexists _, w'. split; [exact E|]. split; [done|].
    split.
    { intros _. exists k, it. rewrite Hdb. by repeat split. }
    intros k' _ [= <-] Hf. split; [done|]. split; [by rewrite Hi|].
    assert (Hf' : faults w' = []).
    { destruct (delete_found_eval (with_itemId k req) w k it)
        as (w2 & E2 & _ & Hf2); try done. rewrite E2 in E.
      by inversion E; subst. }
    rewrite DELETE_id_eval, Ha, Hv.
    destruct (delete_not_found_eval (with_itemId k req) w' k)
      as (w2 & -> & _); try done.
    rewrite Hdb. simpl. apply lookup_delete_eq.
Qed.

(** X5.  Reading one item: an id that does not parse to a positive number
    is answered 400 "Invalid item ID" before any statement is sent; when
    the SELECT fails the answer is 500 "Database error"; otherwise it is
    404 "Item not found" for an absent item and 200 with its row for a
    present one.  In no case do the tables change. *)
Theorem get_item_answers req w :
  exists r w',
    GET_id req w = (Ok r, w')
    /\ db w' = db w /\ txn w' = txn w
    /\ (valid_id req = None ->
        r = mk_resp 400 (Message "Invalid item ID") /\ w' = w)
    /\ (forall k,
          valid_id req = Some k ->
          if fails_next w then r = mk_resp 500 (Message "Database error")
          else match inventory (db w) !! k with
               | Some it => r = mk_resp 200 (Row (row_of k it))
               | None => r = mk_resp 404 (Message "Item not found")
               end).
Proof.
  rewrite GET_id_eval. destruct (valid_id req) as [k|].
  2:{ eexists _, _. split; [reflexivity|]. by repeat split. }
  destruct w as [d t fs tr c]. unfold get_item, select_item. unfold_monad.
  simpl.
  destruct fs as [|[|] fs]; simpl; try destruct (inventory d !! k) eqn:Hi;
    simpl.
  all: eexists _, _; split; [reflexivity|]; repeat split; try done.
  all: intros k' [= <-]; by rewrite ?Hi.
Qed.

(** ** Listing the inventory *)

#[local] Instance row_of_pair_inj :
  Inj (=) (=) (fun p : Z * item => row_of p.1 p.2).
Proof.
  intros [k [n s p]] [k' [n' s' p']]. unfold row_of. simpl.
  by intros [= -> -> -> ->].
Qed.

Lemma select_inventory_NoDup d : NoDup (select_inventory d).
Proof.
  unfold select_inventory. apply (NoDup_fmap_2 _), NoDup_map_to_list.
Qed.

Lemma elem_of_select_inventory d r :
  r ∈ select_inventory d
  <-> inventory d !! r_item_id r
      = Some (mk_item (r_item_name r) (r_stock r) (r_price r)).
Proof.
  unfold select_inventory. rewrite list_elem_of_fmap. split.
  - intros ([k [n s p]] & -> & Hin). by apply elem_of_map_to_list in Hin.
  - intros H. exists (r_item_id r, mk_item (r_item_name r) (r_stock r) (r_price r)).
    split; [by destruct r|]. by apply elem_of_map_to_list.
Qed.

Lemma select_inventory_length d :
  length (select_inventory d) = size (inventory d).
Proof.
  unfold select_inventory. by rewrite length_fmap, length_map_to_list.
Qed.

(** X6.  Listing: when the SELECT fails the answer is 500 "Database
    error".  Otherwise the answer is a list of rows of the table, each
    item at most once.  A limit that parses to a positive number [n] gives
    min(n, number of items) rows; no limit, or one that parses to zero, to
    a negative number or to no number at all, gives every item.  The
    tables do not change. *)
Theorem list_items_answers query_limit w :
  exists a w',
    list_items query_limit w = (Ok a, w')
    /\ db w' = db w
    /\ (fails_next w = true ->
        a = Refused (mk_resp 500 (Message "Database error")))
    /\ (fails_next w = false ->
        exists rows,
          a = Rows rows
          /\ NoDup rows
          /\ (forall r,
                r ∈ rows ->
                inventory (db w) !! r_item_id r
                = Some (mk_item (r_item_name r) (r_stock r) (r_price r)))
          /\ (forall n,
                parseInt (default "undefined" query_limit) = Some n ->
                0 < n ->
                length rows
                = Nat.min (Z.to_nat n) (size (inventory (db w))))
          /\ ((forall n,
                 parseInt (default "undefined" query_limit) = Some n ->
                 n <= 0) ->
              forall k it,
                inventory (db w) !! k = Some it -> row_of k it ∈ rows)).
Proof.
  destruct w as [d t fs tr c]. unfold list_items, query. unfold_monad.
  simpl.
  destruct fs as [|[|] fs]; simpl.
  2:{ eexists _, _. split; [reflexivity|]. by repeat split. }
  all: eexists _, _; split; [reflexivity|]; split; [done|]; split; [done|].
  all: intros _; eexists; split; [reflexivity|].
  all: destruct (parseInt (default "undefined" query_limit)) as [n|] eqn:Hp;
    simpl; try destruct (Z.ltb_spec 0 n) as [Hn|Hn].
  all: unfold select_inventory_limit.
  all: split;
    [eauto using select_inventory_NoDup, sublist_NoDup, sublist_take|].
  all: split;
    [intros r Hr; try apply subseteq_take in Hr;
     by apply elem_of_select_inventory|].
  all: split;
    [intros n' Hn' Hpos; simplify_eq; try lia;
     try (by rewrite length_take, select_inventory_length)|].
  all: intros Hall k it Hi; try (specialize (Hall n eq_refl); lia).
  all: apply elem_of_select_inventory; simpl; rewrite Hi; by destruct it.
Qed.

(** ** The id parameter *)

Lemma digit_val_pretty_N_char d :
  (d < 10)%N -> digit_val 10 (pretty_N_char d) = Some (Z.of_N d).
Proof.
  intros Hd.
  assert (d = 0 \/ d = 1 \/ d = 2 \/ d = 3 \/ d = 4 \/ d = 5 \/ d = 6
          \/ d = 7 \/ d = 8 \/ d = 9)%N as H by lia.
  repeat (destruct H as [->|H]; [reflexivity|]). by subst.
Qed.

Lemma digits_prefix_stop acc s :
  starts_with_digit s = false -> digits_prefix 10 acc s = (acc, s).
Proof.
  destruct s as [|c r]; [done|]. simpl. intros H.
  apply bool_decide_eq_false in H.
  destruct (digit_val 10 c) as [d|]; [|done]. exfalso. apply H. by eexists.
Qed.

(** Reading the digits that [pretty] wrote gives the number back. *)
Lemma digits_prefix_pretty_N_go x :
  (0 < x)%N ->
  exists m,
    forall acc s,
      digits_prefix 10 acc (pretty_N_go x s)
      = digits_prefix 10 (Some (default 0 acc * m + Z.of_N x)) s.
Proof.
  induction (N.lt_wf_0 x) as [x _ IH]. intros Hx.
  destruct (decide (x < 10)%N) as [Hlt|Hge].
  - exists 10. intros acc s. rewrite pretty_N_go_step by done.
    rewrite N.div_small, pretty_N_go_0 by done. simpl.
    rewrite N.mod_small, (digit_val_pretty_N_char x) by done.
    do 2 f_equal. lia.
  - destruct (IH (x `div` 10)%N) as [m Hm].
    { apply N.div_lt; lia. }
    { apply N.div_str_pos; lia. }
    exists (10 * m). intros acc s. rewrite pretty_N_go_step by done.
    rewrite Hm. simpl.
    rewrite (digit_val_pretty_N_char (x `mod` 10)) by (apply N.mod_lt; lia).
    do 2 f_equal.
    pose proof (N.div_mod x 10 ltac:(lia)) as Hdm.
    rewrite N2Z.inj_div, N2Z.inj_mod. simpl Z.of_N.
    pose proof (Z.div_mod (Z.of_N x) 10 ltac:(lia)). lia.
Qed.

(** A positive number is written with a first digit from 1 to 9. *)
Lemma pretty_N_go_head x s :
  (0 < x)%N ->
  exists c r d,
    pretty_N_go x s = String c r /\ digit_val 10 c = Some d /\ 0 < d.
Proof.
  revert s. induction (N.lt_wf_0 x) as [x _ IH]. intros s Hx.
  rewrite pretty_N_go_step by done.
  destruct (decide (x < 10)%N) as [Hlt|Hge].
  - rewrite N.div_small, pretty_N_go_0 by done.
    eexists _, _, _. split; [reflexivity|].
    rewrite N.mod_small, digit_val_pretty_N_char by done. split; [done|lia].
  - apply IH; [apply N.div_lt; lia|apply N.div_str_pos; lia].
Qed.

Lemma pretty_N_go_app x s rest :
  pretty_N_go x s +:+ rest = pretty_N_go x (s +:+ rest).
Proof.
  revert s. induction (N.lt_wf_0 x) as [x _ IH]. intros s.
  destruct (decide (0 < x)%N) as [Hx|Hx].
  - rewrite (pretty_N_go_step x s), (pretty_N_go_step x (s +:+ rest)) by done.
    by rewrite IH by (by apply N.div_lt).
  - assert (x = 0%N) as -> by lia. by rewrite !pretty_N_go_0.
Qed.

(** A first digit from 1 to 9 is no white space, no sign and no "0". *)
Lemma leading_digit_plain c r d :
  digit_val 10 c = Some d -> 0 < d ->
  skip_space (String c r) = String c r
  /\ strip_sign (String c r) = (false, String c r)
  /\ strip_hex_prefix (String c r) = (10, String c r).
Proof.
  destruct c as [[] [] [] [] [] [] [] []]; vm_compute; intros H1 H2;
    try discriminate; try (by injection H1 as <-); by repeat split.
Qed.

Lemma to_double_small n : Z.abs n < 2 ^ 53 -> to_double n = n.
Proof.
  intros H. unfold to_double.
  destruct (Z.abs n <? 2 ^ 53) eqn:E; [done|]. apply Z.ltb_ge in E. lia.
Qed.

Lemma to_double_pos n : 0 < n -> 0 < to_double n.
Proof.
  intros Hn. unfold to_double.
  destruct (Z.abs n <? 2 ^ 53) eqn:E; [done|]. apply Z.ltb_ge in E.
  rewrite Z.abs_eq in * by lia. rewrite Z.sgn_pos by done.
  set (e := Z.log2 n - 52).
  assert (He : 0 < e).
  { assert (53 <= Z.log2 n) by (apply Z.log2_le_pow2; lia). lia. }
  assert (Hp : 0 < 2 ^ e) by (apply Z.pow_pos_nonneg; lia).
  assert (Hq : 0 < n / 2 ^ e).
  { apply Z.div_str_pos. split; [done|].
    etrans; [|apply (proj1 (Z.log2_spec n Hn))].
    apply Z.pow_le_mono_r; lia. }
  destruct (_ || _); nia.
Qed.

Lemma to_double_nonpos n : n <= 0 -> to_double n <= 0.
Proof.
  intros Hn. unfold to_double.
  destruct (Z.abs n <? 2 ^ 53) eqn:E; [done|]. apply Z.ltb_ge in E.
  rewrite Z.sgn_neg by lia.
  set (e := Z.log2 (Z.abs n) - 52).
  assert (Hp : 0 <= 2 ^ e) by (apply Z.pow_nonneg; lia).
  assert (Hq : 0 <= Z.abs n / 2 ^ e) by (apply Z_div_nonneg_nonneg; lia).
  destruct (_ || _); nia.
Qed.

Lemma parseInt_positive_numeral p rest :
  starts_with_digit rest = false ->
  parseInt (pretty (Z.pos p) +:+ rest) = Some (to_double (Z.pos p)).
Proof.
  intros Hrest.
  change (pretty (Z.pos p)) with (pretty_N_go (N.pos p) "").
  rewrite pretty_N_go_app. change ("" +:+ rest) with rest.
  destruct (pretty_N_go_head (N.pos p) rest) as (c & r & d & E & Hc & Hd);
    [lia|].
  destruct (leading_digit_plain c r d Hc Hd) as (H1 & H2 & H3).
  unfold parseInt. rewrite E, H1, H2, H3, <- E.
  destruct (digits_prefix_pretty_N_go (N.pos p)) as [m Hm]; [lia|].
  rewrite Hm, digits_prefix_stop by done. cbn [default]. do 2 f_equal.
Qed.

Lemma string_app_empty_r (s : string) : s +:+ "" = s.
Proof.
  induction s as [|c s IH]; [done|].
  change (String c s +:+ "") with (String c (s +:+ "")). by rewrite IH.
Qed.

Lemma parseInt_minus s :
  parseInt (String "-" s)
  = match (let '(radix, s2) := strip_hex_prefix s in
           digits_prefix radix None s2) with
    | (Some n, _) => Some (to_double (- n))
    | (None, _) => None
    end.
Proof. unfold parseInt. simpl. by destruct (strip_hex_prefix s). Qed.

(** [parseInt] reads every integer written in decimal as the double
    nearest to it. *)
Lemma parseInt_pretty (k : Z) : parseInt (pretty k) = Some (to_double k).
Proof.
  destruct k as [|p|p].
  - reflexivity.
  - rewrite <- (parseInt_positive_numeral p "") by done.
    f_equal. by rewrite string_app_empty_r.
  - change (pretty (Z.neg p)) with (String "-" (pretty_N_go (N.pos p) "")).
    destruct (pretty_N_go_head (N.pos p) "") as (c & r & d & E & Hc & Hd);
      [lia|].
    destruct (leading_digit_plain c r d Hc Hd) as (H1 & H2 & H3).
    rewrite parseInt_minus, E, H3, <- E.
    destruct (digits_prefix_pretty_N_go (N.pos p)) as [m Hm]; [lia|].
    rewrite Hm. cbn [default digits_prefix]. do 2 f_equal.
Qed.

(** X7.  The id parameter is read leniently and checked strictly.  The
    decimal numeral of a positive integer below 2^53 (also when followed
    by any text that does not begin with a digit, as in "12abc") is let
    through with that integer as the item id.  From 2^53 on the numeral
    is let through as well, but the item id is the double nearest to the
    integer, which need not be the integer that was written.  The numeral
    of zero or of a negative integer is answered 400 "Invalid item ID".
    The check changes nothing. *)
Theorem validateIdParam_numerals req w k rest :
  (0 < k < 2 ^ 53 -> starts_with_digit rest = false ->
   params_id req = pretty k +:+ rest ->
   validateIdParam req w = (Ok (Next (with_itemId k req)), w))
  /\ (2 ^ 53 <= k < 10 ^ 20 -> starts_with_digit rest = false ->
      params_id req = pretty k +:+ rest ->
      validateIdParam req w = (Ok (Next (with_itemId (to_double k) req)), w))
  /\ (k <= 0 -> params_id req = pretty k ->
      validateIdParam req w
      = (Ok (Answer (mk_resp 400 (Message "Invalid item ID"))), w)).
Proof.
  split; [|split].
  - intros Hk Hrest Hp. rewrite validateIdParam_eval.
    destruct k as [|p|p]; try lia.
    rewrite (valid_id_parse req (Z.pos p)); [done| |lia].
    rewrite Hp, parseInt_positive_numeral by done.
    by rewrite to_double_small by lia.
  - intros Hk Hrest Hp. rewrite validateIdParam_eval.
    destruct k as [|p|p]; try lia.
    rewrite (valid_id_parse req (to_double (Z.pos p))); [done| |].
    + by rewrite Hp, parseInt_positive_numeral.
    + apply to_double_pos. lia.
  - intros Hk Hp. rewrite validateIdParam_eval. unfold valid_id.
    rewrite Hp, parseInt_pretty.
    pose proof (to_double_nonpos k Hk).
    destruct (to_double k <=? 0) eqn:E; [done|lia].
Qed.

(** ** The authorization header *)

Lemma rev_app_rev_app a b c :
  String.rev_app (String.rev_app a b) c = String.rev_app b (a +:+ c).
Proof.
  revert b c. induction a as [|x a IH]; intros b c; [done|].
  simpl. rewrite IH. done.
Qed.

Lemma rev_rev_app a : String.rev (String.rev_app a "") = a.
Proof.
  unfold String.rev. rewrite rev_app_rev_app. simpl.
  apply string_app_empty_r.
Qed.

Lemma split_aux_word a cur s :
  no_space a = true ->
  split_aux " " cur (a +:+ String " " s)
  = String.rev (String.rev_app a cur) :: split_aux " " "" s.
Proof.
  revert cur. induction a as [|c a IH]; intros cur Ha; [done|].
  simpl in Ha. apply andb_prop in Ha as [Hc Ha].
  change (String c a +:+ String " " s) with (String c (a +:+ String " " s)).
  simpl. destruct (Ascii.eqb c " "); [done|]. by rewrite IH.
Qed.

Lemma split_aux_last a cur :
  no_space a = true ->
  split_aux " " cur a = [String.rev (String.rev_app a cur)].
Proof.
  revert cur. induction a as [|c a IH]; intros cur Ha; [done|].
  simpl in Ha. apply andb_prop in Ha as [Hc Ha].
  simpl. destruct (Ascii.eqb c " "); [done|]. by rewrite IH.
Qed.

Lemma bearer_two_words scheme token :
  no_space scheme = true -> no_space token = true ->
  App.bearer (scheme +:+ String " " token) = JStr token.
Proof.
  intros Hs Ht. unfold App.bearer, split.
  rewrite (split_aux_word _ _ _ Hs), (split_aux_last _ _ Ht). simpl.
  by rewrite rev_rev_app.
Qed.

Lemma bearer_one_word auth :
  no_space auth = true -> App.bearer auth = JUndefined.
Proof.
  intros Ha. unfold App.bearer, split. by rewrite (split_aux_last _ _ Ha).
Qed.

Section AccessControl.

Context {env : Environment}.

(** X8.  [verifyToken] takes the second word of the authorization header
    as the token and never looks at the first: whatever the scheme word,
    the request passes exactly when [jwt.verify] accepts that second word
    under the access secret at the current time, and is answered 403
    "Invalid token" otherwise.  A header of a single word is answered 403,
    a missing or empty header 401 "No token provided".  Nothing
    changes. *)
Theorem verifyToken_reads_second_word req w :
  (forall scheme token,
      no_space scheme = true -> no_space token = true ->
      authorization req = Some (scheme +:+ String " " token) ->
      App.verifyToken req w
      = (Ok match jwt_verify token ACCESS_TOKEN (now w) with
            | Some p => Next (with_user p req)
            | None => Answer (mk_resp 403 (Message "Invalid token"))
            end, w))
  /\ (forall auth,
         authorization req = Some auth -> auth <> "" ->
         no_space auth = true ->
         App.verifyToken req w
         = (Ok (Answer (mk_resp 403 (Message "Invalid token"))), w))
  /\ (authorization req = None \/ authorization req = Some "" ->
      App.verifyToken req w
      = (Ok (Answer (mk_resp 401 (Message "No token provided"))), w)).
Proof.
  rewrite verifyToken_eval. unfold token_check. split; [|split].
  - intros scheme token Hs Ht ->.
    destruct (String.eqb _ "") eqn:E.
    { apply String.eqb_eq in E. by destruct scheme. }
    rewrite (bearer_two_words _ _ Hs Ht).
    by destruct (jwt_verify token ACCESS_TOKEN (now w)).
  - intros auth -> Hne Ha.
    destruct (String.eqb auth "") eqn:E; [by apply String.eqb_eq in E|].
    by rewrite (bearer_one_word _ Ha).
  - by intros [-> | ->].
Qed.

(** X9.  Access to [/inventory]: a request that [verifyToken] answers
    reaches no handler, whichever the route, and leaves everything as it
    was, with status 401 or 403.  A request it lets through carries the
    user of the token, not one sent by the client; with a role other than
    "admin" the create, update and delete routes answer 403 "Forbidden:
    Admin privilege required", and with the role "admin" the purchase
    route answers 403 "Forbidden: Admins cannot make purchases", in each
    case without sending a statement. *)
Theorem inventory_access_control req w :
  (forall h r w',
      App.verifyToken req w = (Ok (Answer r), w') ->
      App.inventory_route h req w = (Ok r, w)
      /\ (status r = 401 \/ status r = 403))
  /\ (forall req' w',
         App.verifyToken req w = (Ok (Next req'), w') ->
         exists p,
           w' = w /\ req' = with_user p req
           /\ (forall h, App.inventory_route h req w = h (with_user p req) w)
           /\ (pl_role p <> Some "admin" ->
               forall R,
                 R = POST_root \/ R = PUT_id \/ R = DELETE_id ->
                 App.inventory_route R req w
                 = (Ok (mk_resp 403
                          (Message "Forbidden: Admin privilege required")), w))
           /\ (pl_role p = Some "admin" ->
               App.inventory_route POST_purchase_id req w
               = (Ok (mk_resp 403
                        (Message "Forbidden: Admins cannot make purchases")),
                  w))).
Proof.
  split.
  - intros h r w' Hv. unfold App.inventory_route. rewrite route_cons, Hv.
    rewrite verifyToken_eval in Hv. injection Hv as Hv <-. split; [done|].
    unfold token_check in Hv.
    repeat (case_match; simplify_eq; simpl; auto).
  - intros req' w' Hv.
    assert (Hroute : forall h, App.inventory_route h req w = h req' w').
    { intros h. unfold App.inventory_route. by rewrite route_cons, Hv. }
    rewrite verifyToken_eval in Hv. injection Hv as Hv <-.
    assert (exists p, req' = with_user p req) as [p ->].
    { unfold token_check in Hv.
      repeat (case_match; simplify_eq; simpl; eauto). }
    exists p. split; [done|]. split; [done|]. split; [done|]. split.
    + intros Hp R HR. rewrite Hroute.
      assert (Ha : is_admin (with_user p req) = false).
      { unfold is_admin. simpl. by apply bool_decide_eq_false. }
      destruct HR as [->|[->| ->]].
      * by rewrite POST_root_eval, Ha.
      * by rewrite PUT_id_eval, Ha.
      * by rewrite DELETE_id_eval, Ha.
    + intros Hp. rewrite Hroute. unfold POST_purchase_id.
      rewrite route_cons. unfold authorizeUser. simpl.
      by destruct (decide (pl_role p = Some "admin")).
Qed.

End AccessControl.

(** ** Accounts and sessions *)

Lemma select_user_by_name_nil username d :
  select_user_by_name username d = [] ->
  filter (fun u => str_matches username (u_username u) = true) (users d) = [].
Proof.
  unfold select_user_by_name. by destruct (filter _ _).
Qed.

Section Accounts.

Context {env : Environment} {hashing : Hashing}.

Lemma signup_effect req w :
  exists r w',
    signup req w = (Ok r, w')
    /\ txn w' = txn w
    /\ (status r <> 201 /\ db w' = db w
        \/ exists n h,
             r = mk_resp 201 (Message "Signup successful, please login")
             /\ field req "username" = JStr n /\ n <> ""
             /\ truthy (field req "password") = true
             /\ bcrypt_hash (field req "password") 10 = Some h
             /\ select_user_by_name (JStr n) (db w) = []
             /\ (n ∉ (u_username <$> users (db w)))
             /\ db w' = mk_db (users (db w)
                               ++ [mk_user (next_user_id (db w)) n h "user"])
                          (refresh_tokens (db w)) (inventory (db w))
                          (purchases (db w))).
Proof.
  destruct w as [d t fs tr c]. unfold signup.
  destruct (truthy (field req "username")) eqn:Hu; simpl.
  2:{ eexists _, _. split; [reflexivity|]. split; [done|]. by left. }
  destruct (truthy (field req "password")) eqn:Hp; simpl.
  2:{ eexists _, _. split; [reflexivity|]. split; [done|]. by left. }
  unfold query, hash, insert_user, select_user_id_by_name. unfold_monad.
  simpl.
  destruct fs as [|[|] fs]; simpl.
  2:{ eexists _, _. split; [reflexivity|]. split; [done|]. by left. }
  all: destruct (select_user_by_name (field req "username") d) eqn:Hs; simpl.
  all: try (eexists _, _; split; [reflexivity|]; split; [done|]; by left).
  all: destruct (bcrypt_hash (field req "password") 10) as [h|] eqn:Hh; simpl.
  all: try (eexists _, _; split; [reflexivity|]; split; [done|]; by left).
  all: try destruct fs as [|[|] fs]; simpl.
  all: try (eexists _, _; split; [reflexivity|]; split; [done|]; by left).
  all: destruct (field req "username") as [| |b|z|n] eqn:Hn; simpl.
  all: try (eexists _, _; split; [reflexivity|]; split; [done|]; by left).
  all: case_bool_decide as Hin; simpl.
  all: try (eexists _, _; split; [reflexivity|]; split; [done|]; by left).
  all: eexists _, _; split; [reflexivity|]; split; [done|]; right.
  all: exists n, h; repeat split; try done.
  all: intros ->; by simpl in Hu.
Qed.

(** X10.  Signup: a falsy username or password is answered 400 "Username
    and password required" and a name that is taken 400 "Username already
    taken".  Unless the answer is 201 the tables are unchanged, whatever
    failed.  On 201 exactly one user row has been appended: its name is
    the username, it was not taken, its password is what [bcrypt.hash]
    returned for the password, and its role is "user" whatever the body
    says; the rows that were there are untouched. *)
Theorem signup_outcomes req w :
  exists r w',
    signup req w = (Ok r, w')
    /\ (status r <> 201 -> db w' = db w)
    /\ (status r = 201 ->
        exists n h,
          field req "username" = JStr n
          /\ bcrypt_hash (field req "password") 10 = Some h
          /\ (n ∉ (u_username <$> users (db w)))
          /\ users (db w')
             = users (db w) ++ [mk_user (next_user_id (db w)) n h "user"]
          /\ refresh_tokens (db w') = refresh_tokens (db w)
          /\ inventory (db w') = inventory (db w)
          /\ purchases (db w') = purchases (db w))
    /\ (truthy (field req "username") = false
        \/ truthy (field req "password") = false ->
        r = mk_resp 400 (Message "Username and password required") /\ w' = w)
    /\ (truthy (field req "username") = true ->
        truthy (field req "password") = true ->
        fails_next w = false ->
        select_user_by_name (field req "username") (db w) <> [] ->
        r = mk_resp 400 (Message "Username already taken")).
Proof.
  destruct (signup_effect req w)
    as (r & w' & E & _ & [[Hr Hdb]|(n & h & -> & Hn & Hne & Hp & Hh & Hs & Hin & Hdb)]).
  - exists r, w'. split; [done|]. split; [done|]. split; [done|].
    unfold signup in E. split.
    + intros [Hf|Hf]; rewrite Hf in E; simpl in E;
        [|rewrite orb_true_r in E]; by injection E as <- <-.
    + intros Hu Hp Hf Hs. rewrite Hu, Hp in E. simpl in E.
      unfold query, select_user_id_by_name in E. unfold_monad.
      rewrite Hf in E. simpl in E.
      destruct (select_user_by_name _ _); [done|]. simpl in E.
      by injection E as <- _.
  - eexists _, w'. split; [exact E|]. split; [done|].
    split.
    { intros _. exists n, h. rewrite Hdb. by repeat split. }
    split.
    + rewrite Hn, Hp. simpl.
      destruct (String.eqb n "") eqn:E'; [by apply String.eqb_eq in E'|].
      by intros [?|?].
    + intros _ _ _. by rewrite Hn, Hs.
Qed.

(** X11.  Signing up, any number of times and with whatever failures,
    keeps usernames distinct, and never changes or removes a user that
    exists. *)
Theorem signups_keep_users_distinct cs w :
  NoDup (u_username <$> users (db w)) ->
  let w' := serve signup cs w in
  NoDup (u_username <$> users (db w'))
  /\ users (db w) `prefix_of` users (db w').
Proof.
  revert w. induction cs as [|c cs IH]; intros w Hn; simpl; [done|].
  destruct (signup_effect (call_req c) (arrive c w))
    as (r & w1 & E & _ & [[_ Hdb]|(n & h & _ & _ & _ & _ & _ & _ & Hin & Hdb)]);
    rewrite E; simpl in *.
  - destruct (IH w1) as (G1 & G2); rewrite ?Hdb; try done.
    by rewrite Hdb in G2.
  - destruct (IH w1) as (G1 & G2).
    + rewrite Hdb. simpl. rewrite fmap_app. simpl.
      apply NoDup_app. split; [done|]. split; [|apply NoDup_singleton].
      intros x Hx ->%list_elem_of_singleton. done.
    + split; [done|]. etrans; [|exact G2].
      rewrite Hdb. simpl. by apply prefix_app_r.
Qed.
End Accounts.

Lemma select_refresh_token_frame uid v0 v1 d :
  v0 <> v1 ->
  select_refresh_token uid v1 (delete_refresh_token v0 d)
  = select_refresh_token uid v1 d.
Proof.
  intros Hne. unfold select_refresh_token, delete_refresh_token. simpl.
  rewrite list_filter_filter. apply list_filter_iff. intros t.
  split; [by intros [? _]|]. intros [Hu Hm]. split; [done|].
  intros Hm0. apply Hne.
  destruct v0 as [| | | |s0], v1 as [| | | |s1]; try done. simpl in *.
  apply String.eqb_eq in Hm, Hm0. congruence.
Qed.

Section Sessions.

Context {env : Environment} {hashing : Hashing}.

(** X12.  Signup then login: after a signup answered 201, a login with
    the same username and password — [bcrypt.compare] accepting the
    password against the hash [bcrypt.hash] made of it — is answered 200
    with tokens for the new user and the role "user"; and a second signup
    with that username is answered 400 "Username already taken". *)
Theorem signup_then_login req w r w1 c h :
  signup req w = (Ok r, w1) -> status r = 201 ->
  bcrypt_hash (field req "password") 10 = Some h ->
  bcrypt_compare (field req "password") h = Some true ->
  call_faults c = [] ->
  let id := next_user_id (db w) in
  (exists w2,
      App.login req (arrive c w1)
      = (Ok (mk_resp 200
               (Session
                  (jwt_sign (mk_payload id (Some "user")) ACCESS_TOKEN 3600
                     (call_now c))
                  (jwt_sign (mk_payload id None) REFRESH_TOKEN 604800
                     (call_now c))
                  "user")), w2))
  /\ fst (signup req (arrive c w1))
     = Ok (mk_resp 400 (Message "Username already taken")).
Proof.
  intros E H201 Hh Hc Hf id.
  destruct (signup_effect req w)
    as (r' & w' & E' & _ & [[Hr _]|(n & h' & _ & Hn & Hne & Hp & Hh' & Hs & _ & Hdb)]);
    rewrite E in E'; injection E' as <- <-; [done|].
  assert (h' = h) as -> by congruence.
  assert (Hu : truthy (field req "username") = true).
  { rewrite Hn. simpl. destruct (String.eqb n "") eqn:E0; [|done].
    by apply String.eqb_eq in E0. }
  assert (Hsel : select_user_by_name (field req "username") (db w1)
                 = [mk_user id n h "user"]).
  { rewrite Hn, Hdb. unfold select_user_by_name. cbn [users].
    rewrite filter_app, (select_user_by_name_nil _ _ Hs).
    rewrite filter_cons_True; [done|]. simpl. apply String.eqb_refl. }
  split.
  - destruct (login_success req (arrive c w1) (mk_user id n h "user") [])
      as (w2 & -> & _); try done. by eexists.
  - destruct (signup_outcomes req (arrive c w1))
      as (r2 & w2 & -> & _ & _ & _ & Htaken). simpl.
    f_equal. apply Htaken; try done.
    + unfold fails_next. simpl. by rewrite Hf.
    + simpl. by rewrite Hsel.
Qed.

(** X13.  Login is answered 200 only when a user row has the username and
    [bcrypt.compare] accepts the password against the hash stored in the
    first such row.  It then appends exactly one refresh-token row, for
    that user, holding the refresh token it returns and expiring seven
    days later, and keeps every row that was there, the tokens of other
    sessions included; the role in the answer is the one stored.  Any
    other answer comes with the tables unchanged, whatever failed. *)
Theorem login_opens_one_session req w :
  exists r w',
    App.login req w = (Ok r, w')
    /\ (status r <> 200 -> db w' = db w)
    /\ (status r = 200 ->
        exists u rest,
          select_user_by_name (field req "username") (db w) = u :: rest
          /\ bcrypt_compare (field req "password") (u_password u) = Some true
          /\ let a := jwt_sign (mk_payload (u_id u) (Some (u_role u)))
                        ACCESS_TOKEN 3600 (now w) in
             let rt := jwt_sign (mk_payload (u_id u) None) REFRESH_TOKEN
                         604800 (now w) in
             r = mk_resp 200 (Session a rt (u_role u))
             /\ db w' = mk_db (users (db w))
                          (refresh_tokens (db w)
                           ++ [mk_token (u_id u) rt
                                 (now w + 7 * 24 * 60 * 60 * 1000)])
                          (inventory (db w)) (purchases (db w))).
Proof.
  destruct w as [d t fs tr c]. unfold App.login.
  destruct (negb (truthy (field req "username"))
            || negb (truthy (field req "password"))).
  { eexists _, _. split; [reflexivity|]. by split. }
  unfold App.compare, App.sign, insert_refresh_token, set_refresh_tokens.
  unfold_monad. simpl.
  destruct fs as [|[|] fs]; simpl.
  2:{ eexists _, _. split; [reflexivity|]. by split. }
  all: destruct (select_user_by_name (field req "username") d)
         as [|u rest] eqn:Hs; simpl.
  all: try (eexists _, _; split; [reflexivity|]; by split).
  all: destruct (bcrypt_compare (field req "password") (u_password u))
         as [[|]|] eqn:Hc; simpl.
  all: try (eexists _, _; split; [reflexivity|]; by split).
  all: try destruct fs as [|[|] fs]; simpl.
  all: try (eexists _, _; split; [reflexivity|]; by split).
  all: eexists _, _; split; [reflexivity|]; split; [done|]; intros _.
  all: by exists u, rest.
Qed.

Lemma refresh_fst_ext req w1 w2 :
  faults w1 = faults w2 -> now w1 = now w2 ->
  users (db w1) = users (db w2) ->
  (forall uid,
      select_refresh_token uid (field req "token") (db w1)
      = select_refresh_token uid (field req "token") (db w2)) ->
  fst (App.refresh req w1) = fst (App.refresh req w2).
Proof.
  destruct w1 as [d1 t1 fs1 tr1 c1], w2 as [d2 t2 fs2 tr2 c2]. simpl.
  intros -> -> Hu Hsel. unfold App.refresh.
  destruct (negb (truthy (field req "token"))); [done|].
  unfold App.verify, App.sign, select_user_by_id. unfold_monad. simpl.
  destruct (field req "token") as [| | | |s]; try done.
  destruct (jwt_verify s REFRESH_TOKEN c2) as [p|]; [|done]. simpl.
  rewrite Hsel.
  destruct fs2 as [|[|] fs]; simpl; try done.
  all: destruct (select_refresh_token (pl_id p) (JStr s) d2); simpl;
    try done.
  all: try destruct fs as [|[|] fs]; simpl; try done.
  all: rewrite Hu; by destruct (filter _ (users d2)).
Qed.

(** X14.  A logout revokes the token it is given and no other: to a
    refresh request that carries a different token, the answer after the
    logout is the answer it would have got before, whether or not the
    logout went through. *)
Theorem logout_revokes_one_token req0 req1 w c :
  field req0 "token" <> field req1 "token" ->
  fst (App.refresh req1 (arrive c (snd (App.logout req0 w))))
  = fst (App.refresh req1 (arrive c w)).
Proof.
  intros Hne. apply refresh_fst_ext; try done.
  - destruct w as [d t fs tr c0]. unfold App.logout.
    destruct (negb (truthy (field req0 "token"))); [done|].
    unfold_monad. simpl. by destruct fs as [|[|] fs].
  - intros uid. destruct w as [d t fs tr c0]. unfold App.logout.
    destruct (negb (truthy (field req0 "token"))); [done|].
    unfold_monad. simpl. destruct fs as [|[|] fs]; simpl; try done.
    all: by apply select_refresh_token_frame.
Qed.

(** X15.  Login then refresh: the refresh token a login returns, sent
    back while [jwt.verify] accepts it as the token of that user and with
    no storage failure, is answered 200 with a new access token, signed
    for the id and the role of the user row with that id. *)
Theorem login_then_refresh req w a rt role w1 u rest0 :
  App.login req w = (Ok (mk_resp 200 (Session a rt role)), w1) ->
  select_user_by_name (field req "username") (db w) = u :: rest0 ->
  rt = jwt_sign (mk_payload (u_id u) None) REFRESH_TOKEN 604800 (now w)
  /\ forall reqR c u' rest,
       field reqR "token" = JStr rt -> rt <> "" ->
       call_faults c = [] ->
       jwt_verify rt REFRESH_TOKEN (call_now c)
       = Some (mk_payload (u_id u) None) ->
       select_user_by_id (u_id u) (db w) = u' :: rest ->
       fst (App.refresh reqR (arrive c w1))
       = Ok (mk_resp 200
               (Access (jwt_sign (mk_payload (u_id u') (Some (u_role u')))
                          ACCESS_TOKEN 3600 (call_now c)))).
Proof.
  intros E Hsel.
  destruct (login_opens_one_session req w) as (r & w' & E' & _ & H200).
  rewrite E in E'. injection E' as <- <-.
  destruct (H200 eq_refl) as (u0 & rest1 & Hsel0 & _ & Hr & Hdb).
  rewrite Hsel in Hsel0. injection Hsel0 as <- <-.
  injection Hr as -> -> ->. split; [done|].
  intros reqR c u' rest Ht Hne Hf Hv Hu.
  destruct (refresh_eval reqR (arrive c w1) _ _ Ht Hne Hv Hf) as (w2 & -> & _).
  simpl. rewrite Hdb. unfold select_refresh_token, select_user_by_id in *.
  simpl. rewrite filter_app. simpl.
  rewrite (filter_cons_True _ (mk_token _ _ _));
    [|split; [done|simpl; apply String.eqb_refl]].
  rewrite Hu.
  by destruct (filter _ (refresh_tokens (db w))).
Qed.

End Sessions.

(** ** The provisioning script *)

Lemma select_users_by_name_nil n d :
  select_users_by_name (JStr n) d = [] <-> n ∉ (u_username <$> users d).
Proof.
  unfold select_users_by_name. induction (users d) as [|u l IH].
  - split; [intros _ ?%elem_of_nil|]; done.
  - rewrite fmap_cons, not_elem_of_cons, filter_cons. simpl.
    destruct (decide _) as [E|E].
    + apply String.eqb_eq in E. split; [done|]. by intros [? _].
    + rewrite IH. split; [|by intros [_ ?]]. intros H. split; [|done].
      intros ->. apply E. apply String.eqb_refl.
Qed.

Section Provisioning.

Context {hashing : Hashing}.

(** One round of the loop, with no storage failure. *)
Lemma create_each_cons_run n pw r rest w :
  faults w = [] ->
  create_each ((n, pw, r) :: rest) w
  = if bool_decide (n ∈ u_username <$> users (db w)) then create_each rest w
    else
      match bcrypt_hash (JStr pw) 10 with
      | Some h =>
          create_each rest
            (with_db (mk_db (users (db w)
                             ++ [mk_user (next_user_id (db w)) n h r])
                        (refresh_tokens (db w)) (inventory (db w))
                        (purchases (db w))) w)
      | None => (Throw BcryptError, w)
      end.
Proof.
  destruct w as [d t fs tr c]. simpl. intros ->.
  cbn [create_each]. unfold query, hash, insert_user. unfold_monad. simpl.
  case_bool_decide as Hin.
  - destruct (select_users_by_name (JStr n) d) eqn:Hs; [|done].
    by apply select_users_by_name_nil in Hs.
  - apply select_users_by_name_nil in Hin. rewrite Hin. simpl.
    destruct (bcrypt_hash (JStr pw) 10); [|done]. simpl.
    apply select_users_by_name_nil in Hin.
    by rewrite bool_decide_eq_false_2.
Qed.

Lemma create_each_run us :
  forall w,
    faults w = [] ->
    Forall (fun x => is_Some (bcrypt_hash (JStr x.1.2) 10)) us ->
    exists w',
      create_each us w = (Ok tt, w')
      /\ faults w' = [] /\ txn w' = txn w
      /\ users (db w) `prefix_of` users (db w')
      /\ refresh_tokens (db w') = refresh_tokens (db w)
      /\ inventory (db w') = inventory (db w)
      /\ purchases (db w') = purchases (db w)
      /\ (forall x, x ∈ us -> x.1.1 ∈ u_username <$> users (db w'))
      /\ (forall u,
            u ∈ users (db w') ->
            u ∈ users (db w)
            \/ exists x,
                 x ∈ us /\ u_username u = x.1.1 /\ u_role u = x.2
                 /\ bcrypt_hash (JStr x.1.2) 10 = Some (u_password u))
      /\ ((forall x, x ∈ us -> x.1.1 ∈ u_username <$> users (db w)) ->
          db w' = db w).
Proof.
  induction us as [|[[n pw] r] rest IH]; intros w Hf Hh.
  { exists w. repeat split; try done.
    - intros x ?%elem_of_nil. done.
    - by left. }
  apply Forall_cons in Hh as [[h Hh] Hrest]. simpl in Hh.
  rewrite (create_each_cons_run _ _ _ _ _ Hf).
  case_bool_decide as Hin.
  - destruct (IH w Hf Hrest)
      as (w' & -> & Hf' & Ht & Hp & H1 & H2 & H3 & Hall & Hnew & Hid).
    exists w'. repeat split; try done.
    + intros x [->|Hx]%elem_of_cons; [|by apply Hall]. simpl.
      destruct Hp as [k ->]. rewrite fmap_app. apply elem_of_app. by left.
    + intros u Hu. destruct (Hnew u Hu) as [?|(x & Hx & ?)]; [by left|].
      right. exists x. split; [|done]. by apply elem_of_cons; right.
    + intros Hpresent. apply Hid. intros x Hx. apply Hpresent.
      by apply elem_of_cons; right.
  - rewrite Hh.
    destruct (IH (with_db (mk_db (users (db w)
                                  ++ [mk_user (next_user_id (db w)) n h r])
                             (refresh_tokens (db w)) (inventory (db w))
                             (purchases (db w))) w))
      as (w' & -> & Hf' & Ht & Hp & H1 & H2 & H3 & Hall & Hnew & Hid);
      [by destruct w|done|].
    destruct w as [d t fs tr c]. simpl in *.
    exists w'. repeat split; try done.
    + etrans; [|exact Hp]. by apply prefix_app_r.
    + intros x [->|Hx]%elem_of_cons; [|by apply Hall]. simpl.
      destruct Hp as [k ->]. rewrite !fmap_app. simpl.
      apply elem_of_app. left. apply elem_of_app. right.
      by apply list_elem_of_singleton.
    + intros u Hu. destruct (Hnew u Hu) as [Hold|(x & Hx & ?)].
      * apply elem_of_app in Hold as [?|Hlast]; [by left|].
        apply list_elem_of_singleton in Hlast as ->.
        right. exists (n, pw, r). split; [by apply elem_of_cons; left|].
        by simpl.
      * right. exists x. split; [|done]. by apply elem_of_cons; right.
    + intros Hpresent. exfalso. apply Hin.
      apply (Hpresent (n, pw, r)). by apply elem_of_cons; left.
Qed.

(** Whatever fails, the loop only ever appends user rows. *)
Lemma create_each_keeps us :
  forall w,
    let w' := snd (create_each us w) in
    users (db w) `prefix_of` users (db w')
    /\ refresh_tokens (db w') = refresh_tokens (db w)
    /\ inventory (db w') = inventory (db w)
    /\ purchases (db w') = purchases (db w).
Proof.
  induction us as [|[[n pw] r] rest IH]; intros w; [done|].
  destruct w as [d t fs tr c]. cbn [create_each].
  unfold query, hash, insert_user. unfold_monad. simpl.
  destruct fs as [|[|] fs]; simpl; try done.
  all: destruct (select_users_by_name (JStr n) d); simpl.
  all: try apply (IH (mk_world _ _ _ _ _)).
  all: destruct (bcrypt_hash (JStr pw) 10); simpl; try done.
  all: try destruct fs as [|[|] fs]; simpl; try done.
  all: case_bool_decide; simpl; try done.
  all: match goal with
       | |- context [create_each ?l ?w] =>
           destruct (IH w) as (Hp & H1 & H2 & H3);
           destruct (create_each l w) as [[?|?] ?]
       end; simpl in *.
  all: repeat split; try done.
  all: etrans; [|exact Hp]; by apply prefix_app_r.
Qed.

(** X16.  The script that creates the administrator accounts: whatever
    fails, it only appends user rows and exits with 0 or 1.  With no
    storage failure and [bcrypt.hash] accepting the two passwords it exits
    with 0; afterwards both usernames exist, every row that was there is
    as it was (an account that already had one of the names keeps its
    role and password), and every row added has one of the two names, the
    role "admin" and the hash of its password.  Running it a second time
    changes nothing. *)
Theorem createUsers_idempotent w :
  (exists code w1,
      createUsers w = (Ok code, w1)
      /\ (code = 0 \/ code = 1)
      /\ users (db w) `prefix_of` users (db w1)
      /\ refresh_tokens (db w1) = refresh_tokens (db w)
      /\ inventory (db w1) = inventory (db w)
      /\ purchases (db w1) = purchases (db w))
  /\ (faults w = [] ->
      is_Some (bcrypt_hash (JStr "admin2@123") 10) ->
      is_Some (bcrypt_hash (JStr "super@123") 10) ->
      exists w1 w2,
        createUsers w = (Ok 0, w1)
        /\ "admin2" ∈ u_username <$> users (db w1)
        /\ "superadmin" ∈ u_username <$> users (db w1)
        /\ (forall u,
              u ∈ users (db w1) ->
              u ∈ users (db w)
              \/ u_role u = "admin"
                 /\ (u_username u = "admin2"
                     /\ bcrypt_hash (JStr "admin2@123") 10
                        = Some (u_password u)
                     \/ u_username u = "superadmin"
                        /\ bcrypt_hash (JStr "super@123") 10
                           = Some (u_password u)))
        /\ createUsers w1 = (Ok 0, w2)
        /\ db w2 = db w1).
Proof.
  split.
  - unfold createUsers. unfold_monad.
    pose proof (create_each_keeps usersToCreate w) as H. cbv zeta in H.
    revert H.
    destruct (create_each usersToCreate w) as [[[]|e] w1]; simpl; intros H.
    + exists 0, w1. split; [done|]. split; [by left|]. done.
    + exists 1, w1. split; [done|]. split; [by right|]. done.
  - intros Hf H1 H2.
    assert (Hh : Forall (fun x => is_Some (bcrypt_hash (JStr x.1.2) 10))
                   usersToCreate).
    { unfold usersToCreate. by repeat constructor. }
    destruct (create_each_run usersToCreate w Hf Hh)
      as (w1 & E1 & Hf1 & _ & _ & _ & _ & _ & Hall & Hnew & _).
    destruct (create_each_run usersToCreate w1 Hf1 Hh)
      as (w2 & E2 & _ & _ & _ & _ & _ & _ & _ & _ & Hid).
    exists w1, w2. unfold createUsers. unfold_monad. rewrite E1, E2.
    split; [done|].
    split; [apply (Hall ("admin2", "admin2@123", "admin")); set_solver|].
    split; [apply (Hall ("superadmin", "super@123", "admin")); set_solver|].
    split.
    + intros u Hu. destruct (Hnew u Hu) as [?|(x & Hx & Hn & Hr & Hp)];
        [by left|]. right.
      apply elem_of_cons in Hx as [->|Hx]; [by auto|].
      apply list_elem_of_singleton in Hx as ->. by auto.
    + split; [done|]. by apply Hid.
Qed.

End Provisioning.

(** * The added theorems at concrete inputs *)

Example signup_ignores_role :
  exists w',
    signup (H := Demo.hashing) (Demo.signup_request "carol" "pw3")
      (idle Toy.shop 0)
    = (Ok (mk_resp 201 (Message "Signup successful, please login")), w')
    /\ users (db w')
       = [Toy.alice; Toy.root; mk_user 3 "carol" (Toy.hash "pw3") "user"].
Proof. eexists. by vm_compute. Qed.

Example list_with_and_without_limit :
  fst (list_items (Some "1") (idle Toy.shop 0))
  = Ok (Rows [mk_row 2 "ink" 0 None])
  /\ fst (list_items None (idle Toy.shop 0))
     = Ok (Rows [mk_row 2 "ink" 0 None; mk_row 1 "pen" 3 (Some 120)])
  /\ fst (list_items (Some "-4") (idle Toy.shop 0))
     = fst (list_items None (idle Toy.shop 0)).
Proof. by vm_compute. Qed.

Lemma purchases_conserve_stock_witness :
  let w' := serve POST_purchase_id Toy.rush (idle Toy.shop 0) in
  on_hand 1 (db w') + sold 1 (purchases (db w')) = 3
  /\ users (db w') = users Toy.shop.
Proof.
  destruct (purchases_conserve_stock Toy.rush (idle Toy.shop 0) 1 eq_refl)
    as (H1 & _ & _ & H4 & _).
  split; [exact H1|exact H4].
Defined.

Lemma repeated_purchase_sells_what_is_there_witness :
  let w' := serve POST_purchase_id
              (replicate 5 (mk_call (Toy.buy "1" 2) [] 7)) (idle Toy.shop 0) in
  inventory (db w') !! 1 = Some (mk_item "pen" 1 (Some 120))
  /\ purchases (db w') = [mk_purchase 1 2 (Some 1)].
Proof.
  exact (repeated_purchase_sells_what_is_there (Toy.buy "1" 2) Toy.as_user
           1 2 5 7 eq_refl ltac:(discriminate) eq_refl ltac:(lia) eq_refl
           ltac:(lia) (idle Toy.shop 0) (mk_item "pen" 3 (Some 120)) eq_refl
           ltac:(simpl; lia)).
Defined.

Lemma create_never_overwrites_witness :
  exists r w',
    POST_root (Toy.new_item 1 "quill" 9) (idle Toy.shop 0) = (Ok r, w')
    /\ inventory (db w') !! 1 = Some (mk_item "pen" 3 (Some 120))
    /\ r = mk_resp 400 (Message "ID already exists").
Proof.
  destruct (create_never_overwrites (Toy.new_item 1 "quill" 9)
              (idle Toy.shop 0))
    as (r & w' & E & Hkeep & _ & _ & _ & _ & _ & Hdup).
  exists r, w'. split; [exact E|]. split.
  - apply Hkeep. reflexivity.
  - apply (Hdup 1 "quill" 9 None); try reflexivity; try discriminate.
    by eexists.
Defined.

Lemma delete_removes_one_item_witness :
  exists r w',
    DELETE_id (Toy.request_of Toy.as_admin "1" []) (idle Toy.shop 0)
    = (Ok r, w')
    /\ status r = 200
    /\ fst (DELETE_id (Toy.request_of Toy.as_admin "1" []) w')
       = Ok (mk_resp 404 (Message "Item not found")).
Proof.
  destruct (delete_removes_one_item (Toy.request_of Toy.as_admin "1" [])
              (idle Toy.shop 0))
    as (r & w' & E & _ & _ & H).
  destruct (H 1) as (H200 & _ & H404); try reflexivity.
  exists r, w'. split; [exact E|]. split; [|exact H404].
  apply H200. by eexists.
Defined.

Lemma get_item_answers_witness :
  exists r w',
    GET_id (Toy.request_of Toy.as_user "2" []) (idle Toy.shop 0) = (Ok r, w')
    /\ r = mk_resp 200 (Row (mk_row 2 "ink" 0 None)).
Proof.
  destruct (get_item_answers (Toy.request_of Toy.as_user "2" [])
              (idle Toy.shop 0)) as (r & w' & E & _ & _ & _ & H).
  exists r, w'. split; [exact E|]. exact (H 2 eq_refl).
Defined.

Lemma list_items_answers_witness :
  exists rows,
    fst (list_items (Some "1") (idle Toy.shop 0)) = Ok (Rows rows)
    /\ length rows = 1%nat.
Proof.
  destruct (list_items_answers (Some "1") (idle Toy.shop 0))
    as (a & w' & E & _ & _ & H).
  destruct (H eq_refl) as (rows & -> & _ & _ & Hlen & _).
  exists rows. rewrite E. split; [reflexivity|].
  rewrite (Hlen 1); [reflexivity|reflexivity|lia].
Defined.

Lemma validateIdParam_numerals_witness :
  validateIdParam (Toy.request_of Toy.as_user "12abc" []) (idle Toy.shop 0)
  = (Ok (Next (with_itemId 12 (Toy.request_of Toy.as_user "12abc" []))),
     idle Toy.shop 0)
  /\ validateIdParam (Toy.request_of Toy.as_user "9007199254740993" [])
       (idle Toy.shop 0)
     = (Ok (Next (with_itemId 9007199254740992
                    (Toy.request_of Toy.as_user "9007199254740993" []))),
        idle Toy.shop 0)
  /\ validateIdParam (Toy.request_of Toy.as_user "-3" []) (idle Toy.shop 0)
     = (Ok (Answer (mk_resp 400 (Message "Invalid item ID"))), idle Toy.shop 0).
Proof.
  split; [|split].
  - apply (proj1 (validateIdParam_numerals _ _ 12 "abc"));
      first [reflexivity | lia].
  - apply (proj1 (proj2 (validateIdParam_numerals _ _ 9007199254740993 "")));
      first [reflexivity | lia].
  - apply (proj2 (proj2 (validateIdParam_numerals _ _ (-3) "")));
      first [reflexivity | lia].
Defined.

Lemma verifyToken_reads_second_word_witness :
  App.verifyToken (env := Toy.env)
    (mk_req (Some ("Basic " +:+ Toy.access_token)) "" ∅ None JUndefined)
    (idle Toy.shop 0)
  = (Ok (Next (with_user Toy.as_user
                 (mk_req (Some ("Basic " +:+ Toy.access_token)) "" ∅ None
                    JUndefined))),
     idle Toy.shop 0).
Proof.
  apply (proj1 (verifyToken_reads_second_word (env := Toy.env)
                  (mk_req (Some ("Basic " +:+ Toy.access_token)) "" ∅ None
                     JUndefined) (idle Toy.shop 0))
           "Basic" Toy.access_token); reflexivity.
Defined.

Lemma inventory_access_control_witness :
  App.inventory_route (env := Toy.env) DELETE_id
    (Toy.authorized Toy.access_token "1" []) (idle Toy.shop 0)
  = (Ok (mk_resp 403 (Message "Forbidden: Admin privilege required")),
     idle Toy.shop 0).
Proof.
  destruct (proj2 (inventory_access_control (env := Toy.env)
                     (Toy.authorized Toy.access_token "1" [])
                     (idle Toy.shop 0))
              (with_user Toy.as_user (Toy.authorized Toy.access_token "1" []))
              (idle Toy.shop 0) eq_refl)
    as (p & _ & Hp & _ & Huser & _).
  injection Hp as <-.
  apply Huser; [discriminate|]. by right; right.
Defined.

Lemma signup_outcomes_witness :
  exists r w',
    signup (H := Demo.hashing) (Demo.signup_request "alice" "pw9")
      (idle Toy.shop 0) = (Ok r, w')
    /\ r = mk_resp 400 (Message "Username already taken")
    /\ db w' = Toy.shop.
Proof.
  destruct (signup_outcomes (hashing := Demo.hashing)
              (Demo.signup_request "alice" "pw9") (idle Toy.shop 0))
    as (r & w' & E & Hsame & _ & _ & Htaken).
  assert (Hr : r = mk_resp 400 (Message "Username already taken")).
  { apply Htaken; try reflexivity. discriminate. }
  exists r, w'. split; [exact E|]. split; [exact Hr|].
  apply Hsame. rewrite Hr. discriminate.
Defined.

Lemma signups_keep_users_distinct_witness :
  let w' := serve (signup (H := Demo.hashing))
              [mk_call (Demo.signup_request "carol" "pw3") [] 1;
               mk_call (Demo.signup_request "carol" "pw4") [] 2]
              (idle Toy.shop 0) in
  NoDup (u_username <$> users (db w')).
Proof.
  apply (signups_keep_users_distinct (hashing := Demo.hashing)
           [mk_call (Demo.signup_request "carol" "pw3") [] 1;
            mk_call (Demo.signup_request "carol" "pw4") [] 2]
           (idle Toy.shop 0)).
  apply (bool_decide_unpack _). by vm_compute.
Defined.

Lemma signup_then_login_witness :
  fst (signup (H := Demo.hashing) (Demo.signup_request "carol" "pw3")
         (arrive (mk_call (Demo.signup_request "carol" "pw3") [] 5)
            (snd (signup (H := Demo.hashing)
                    (Demo.signup_request "carol" "pw3") (idle Toy.shop 0)))))
  = Ok (mk_resp 400 (Message "Username already taken")).
Proof.
  apply (signup_then_login (env := Toy.env) (hashing := Demo.hashing)
           (Demo.signup_request "carol" "pw3") (idle Toy.shop 0)
           (mk_resp 201 (Message "Signup successful, please login"))
           (snd (signup (H := Demo.hashing)
                   (Demo.signup_request "carol" "pw3") (idle Toy.shop 0)))
           (mk_call (Demo.signup_request "carol" "pw3") [] 5)
           (Toy.hash "pw3")); reflexivity.
Defined.

Lemma login_opens_one_session_witness :
  exists r w',
    App.login (env := Toy.env) (Toy.credentials "alice" "guess")
      (idle Toy.shop 0) = (Ok r, w')
    /\ db w' = Toy.shop.
Proof.
  destruct (login_opens_one_session (env := Toy.env)
              (Toy.credentials "alice" "guess") (idle Toy.shop 0))
    as (r & w' & E & Hsame & _).
  exists r, w'. split; [exact E|]. apply Hsame.
  vm_compute in E. injection E as <- _. discriminate.
Defined.

Lemma logout_revokes_one_token_witness :
  let other := Toy.post [("token", JStr "refresh-secret..2.604800")] in
  let mine := Toy.post [("token", JStr Toy.refresh_token)] in
  let c := mk_call mine [] 60000 in
  fst (App.refresh (env := Toy.env) mine
         (arrive c (snd (App.logout other Toy.logged_in))))
  = fst (App.refresh (env := Toy.env) mine (arrive c Toy.logged_in)).
Proof.
  apply (logout_revokes_one_token (env := Toy.env)). discriminate.
Defined.

Lemma login_then_refresh_witness :
  fst (App.refresh (env := Toy.env)
         (Toy.post [("token", JStr Toy.refresh_token)])
         (arrive (mk_call (Toy.post []) [] 60000) Toy.logged_in))
  = Ok (mk_resp 200 (Access "access-secret.user.1.3660")).
Proof.
  destruct (login_then_refresh (env := Toy.env)
              (Toy.credentials "alice" "pw1") (idle Toy.shop 0)
              Toy.access_token Toy.refresh_token "user" Toy.logged_in
              Toy.alice []) as (_ & H).
  - by vm_compute.
  - reflexivity.
  - apply (H _ (mk_call (Toy.post []) [] 60000) Toy.alice []);
      try reflexivity; discriminate.
Defined.

Lemma createUsers_idempotent_witness :
  exists w1 w2,
    createUsers (H := Demo.hashing) (idle Toy.shop 0) = (Ok 0, w1)
    /\ "superadmin" ∈ (u_username <$> users (db w1))
    /\ createUsers (H := Demo.hashing) w1 = (Ok 0, w2)
    /\ db w2 = db w1.
Proof.
  destruct (proj2 (createUsers_idempotent (hashing := Demo.hashing)
                     (idle Toy.shop 0)) eq_refl)
    as (w1 & w2 & E1 & _ & H2 & _ & E2 & Hdb).
  - by eexists.
  - by eexists.
  - by exists w1, w2.
Defined.
